(** * Receipt OCR front end (app.py): fallback orchestration of two OCR engines

    A shallow embedding of [ocr_receipt] and of the module start-up code of
    app.py, together with the small part of the Python run time, of OpenCV
    and of the file system that the function touches.

    Conventions.
    - A Python [str] is a Rocq [string] holding its UTF-8 encoding; the
      characters of a [str] are its UTF-8 sequences ([Py.chars]).
    - A raised exception is identified with the text that
      [traceback.format_exc()] renders for it.
    - Statements that may raise and that mutate [debug_lines], the file
      system or the locals run in the monad [M]: a state monad whose state
      survives a raise, exactly as the mutations of a Python [try] body
      survive into its [except] handler. *)

From Stdlib Require Import ZArith String Ascii List Lia.
From stdpp Require Import base decidable option list gmap strings pretty.

Set Warnings "-register-all,-clear-no-such-hyp".
Open Scope string_scope.
Open Scope list_scope.

(* ===================================================================== *)
(** * Part I. Definitions *)
(* ===================================================================== *)

(** ** Python strings *)

Module Py.

Definition nl : string := String "010"%char EmptyString.
Definition byte (n : nat) : ascii := ascii_of_nat n.
Definition bytes (l : list nat) : string := string_of_list_ascii (List.map byte l).

(** [sep.join(l)] on a list of [str]. *)
Fixpoint join (sep : string) (l : list string) : string :=
  match l with
  | [] => EmptyString
  | [x] => x
  | x :: rest => x +:+ sep +:+ join sep rest
  end.

(** A UTF-8 continuation byte is 10xxxxxx. *)
Definition is_cont (c : ascii) : bool :=
  let n := nat_of_ascii c in (128 <=? n)%nat && (n <? 192)%nat.

(** [split_cont s] is the run of continuation bytes that starts [s] and the
    characters of the rest: every other byte opens a character and takes the
    continuation bytes that follow it. *)
Fixpoint split_cont (s : string) : string * list string :=
  match s with
  | EmptyString => (EmptyString, [])
  | String c rest =>
      let '(k, cs) := split_cont rest in
      if is_cont c then (String c k, cs) else (EmptyString, String c k :: cs)
  end.

(** The characters (code points) of a [str], each as its UTF-8 sequence. *)
Definition chars (s : string) : list string :=
  let '(k, cs) := split_cont s in
  match k with EmptyString => cs | _ => k :: cs end.

(** The characters for which [str.isspace()] holds: U+0009..U+000D,
    U+001C..U+0020, U+0085, U+00A0, U+1680, U+2000..U+200A, U+2028, U+2029,
    U+202F, U+205F and U+3000. *)
Definition whitespace : list string :=
  List.map (fun n => bytes [n]) [9; 10; 11; 12; 13; 28; 29; 30; 31; 32]%nat
  ++ [bytes [194; 133]; bytes [194; 160]; bytes [225; 154; 128]]%nat
  ++ List.map (fun n => bytes [226; 128; n]) (seq 128 11)
  ++ [bytes [226; 128; 168]; bytes [226; 128; 169]; bytes [226; 128; 175];
      bytes [226; 129; 159]; bytes [227; 128; 128]]%nat.

Definition is_space (ch : string) : bool := existsb (String.eqb ch) whitespace.

Fixpoint lstrip_chars (cs : list string) : list string :=
  match cs with
  | [] => []
  | c :: rest => if is_space c then lstrip_chars rest else cs
  end.

(** [s.strip()]. *)
Definition strip (s : string) : string :=
  String.concat EmptyString
    (rev (lstrip_chars (rev (lstrip_chars (chars s))))).

(** ** Python values

    The values an engine may hand back: the documented results are lists
    and tuples of boxes, strings and confidences.  [PyFloat] carries the
    printed form of the float, the only thing the program asks of it;
    [PyObj] is any other object that is not a list, cannot be subscripted
    and cannot be iterated, with what [str()] and [repr()] give for it. *)

Inductive PyVal : Type :=
  | PyNone
  | PyBool (b : bool)
  | PyInt (z : Z)
  | PyFloat (printed : string)
  | PyStr (s : string)
  | PyList (xs : list PyVal)
  | PyTuple (xs : list PyVal)
  | PyObj (as_str as_repr : string).

Definition quote1 : ascii := "039"%char.
Definition quote2 : ascii := "034"%char.
Definition backslash : ascii := "092"%char.

Fixpoint has_char (c : ascii) (s : string) : bool :=
  match s with
  | EmptyString => false
  | String d rest => Ascii.eqb c d || has_char c rest
  end.

Definition hex_digit (n : nat) : ascii :=
  if (n <? 10)%nat then ascii_of_nat (48 + n) else ascii_of_nat (87 + n).

(** One character of a [str] as [repr] writes it between quotes [q].
    Bytes from 128 on belong to non-ASCII characters, which [repr] keeps
    when they are printable; they are taken to be. *)
Definition repr_char (q c : ascii) : string :=
  let n := nat_of_ascii c in
  if Ascii.eqb c backslash then String backslash (String backslash EmptyString)
  else if Ascii.eqb c q then String backslash (String q EmptyString)
  else if (n =? 9)%nat then String backslash "t"
  else if (n =? 10)%nat then String backslash "n"
  else if (n =? 13)%nat then String backslash "r"
  else if (n <? 32)%nat || (n =? 127)%nat then
    String backslash
      (String "x" (String (hex_digit (n / 16)) (String (hex_digit (n mod 16)) EmptyString)))
  else String c EmptyString.

Fixpoint repr_body (q : ascii) (s : string) : string :=
  match s with
  | EmptyString => EmptyString
  | String c rest => repr_char q c +:+ repr_body q rest
  end.

(** [repr(s)] for a [str]: single quotes, unless the text has a single
    quote and no double quote. *)
Definition repr_str (s : string) : string :=
  let q := if has_char quote1 s && negb (has_char quote2 s) then quote2 else quote1 in
  String q (repr_body q s +:+ String q EmptyString).

(** [repr(v)]. *)
Fixpoint repr (v : PyVal) : string :=
  match v with
  | PyNone => "None"
  | PyBool true => "True"
  | PyBool false => "False"
  | PyInt z => pretty z
  | PyFloat printed => printed
  | PyStr s => repr_str s
  | PyList xs => "[" +:+ join ", " (List.map repr xs) +:+ "]"
  | PyTuple [x] => "(" +:+ repr x +:+ ",)"
  | PyTuple xs => "(" +:+ join ", " (List.map repr xs) +:+ ")"
  | PyObj _ r => r
  end.

(** [str(v)]. *)
Definition str (v : PyVal) : string :=
  match v with
  | PyStr s => s
  | PyObj s _ => s
  | _ => repr v
  end.

(** ** Exceptions *)

(** An exception, identified with what [traceback.format_exc()] renders
    for it while it is being handled. *)
Record Exn : Type := mkExn { format_exc : string }.

Inductive Res (A : Type) : Type :=
  | Ok (a : A)
  | Raise (e : Exn).
Arguments Ok {A} a.
Arguments Raise {A} e.

Definition traceback_of (kind msg : string) : Exn :=
  mkExn ("Traceback (most recent call last):" +:+ nl +:+ kind +:+ ": " +:+ msg +:+ nl).

Definition TypeError (msg : string) : Exn := traceback_of "TypeError" msg.
Definition IndexError (msg : string) : Exn := traceback_of "IndexError" msg.

(** The name Python prints for the type of a value. *)
Definition type_name (v : PyVal) : string :=
  match v with
  | PyNone => "NoneType"
  | PyBool _ => "bool"
  | PyInt _ => "int"
  | PyFloat _ => "float"
  | PyStr _ => "str"
  | PyList _ => "list"
  | PyTuple _ => "tuple"
  | PyObj _ _ => "object"
  end.

(** [v[i]] for a constant index [i >= 0]. *)
Definition getitem (v : PyVal) (i : nat) : Res PyVal :=
  match v with
  | PyList xs =>
      match xs !! i with
      | Some x => Ok x
      | None => Raise (IndexError "list index out of range")
      end
  | PyTuple xs =>
      match xs !! i with
      | Some x => Ok x
      | None => Raise (IndexError "tuple index out of range")
      end
  | PyStr s =>
      match chars s !! i with
      | Some c => Ok (PyStr c)
      | None => Raise (IndexError "string index out of range")
      end
  | _ => Raise (TypeError ("'" +:+ type_name v +:+ "' object is not subscriptable"))
  end.

(** The elements [for x in v] runs over. *)
Definition iter (v : PyVal) : Res (list PyVal) :=
  match v with
  | PyList xs => Ok xs
  | PyTuple xs => Ok xs
  | PyStr s => Ok (List.map PyStr (chars s))
  | _ => Raise (TypeError ("'" +:+ type_name v +:+ "' object is not iterable"))
  end.

(** [isinstance(v, list)]. *)
Definition is_list (v : PyVal) : bool :=
  match v with PyList _ => true | _ => false end.

(** [sep.join(items)] on a list of values: a [TypeError] at the first item
    that is not a [str]. *)
Fixpoint strs_from (i : nat) (items : list PyVal) : Res (list string) :=
  match items with
  | [] => Ok []
  | PyStr s :: rest =>
      match strs_from (S i) rest with
      | Ok ss => Ok (s :: ss)
      | Raise e => Raise e
      end
  | v :: _ =>
      Raise (TypeError ("sequence item " +:+ pretty i +:+ ": expected str instance, "
                        +:+ type_name v +:+ " found"))
  end.

Definition str_join (sep : string) (items : list PyVal) : Res string :=
  match strs_from 0 items with
  | Ok ss => Ok (join sep ss)
  | Raise e => Raise e
  end.

End Py.

(** ** Arrays and the colour conversions of OpenCV *)

(** A numpy array of pixel samples: its [shape] and the sample at an index. *)
Record ndarray : Type := mkArray { shape : list nat; sample : list nat -> Z }.

Definition ndim (a : ndarray) : nat := length (shape a).

Module Cv2.

Import Py.

Inductive ColorCode : Type := COLOR_GRAY2BGR | COLOR_RGBA2BGR | COLOR_RGB2BGR.

Definition error (msg : string) : Exn := traceback_of "cv2.error" msg.

(** Output sample [i, j, k] of a conversion that reverses the first three
    channels (and so leaves a fourth one out). *)
Definition swap_rb (src : ndarray) (idx : list nat) : Z :=
  match idx with
  | [i; j; k] => sample src [i; j; 2 - k]
  | _ => 0%Z
  end.

(** Output sample [i, j, k] of the conversion that copies the one input
    channel to each output channel. *)
Definition replicate_gray (src : ndarray) (idx : list nat) : Z :=
  match idx with
  | [i; j; _] =>
      match shape src with
      | [_; _] => sample src [i; j]
      | _ => sample src [i; j; 0]
      end
  | _ => 0%Z
  end.

(** [cv2.cvtColor(src, code)] as OpenCV documents the three conversions the
    program asks for: GRAY2BGR takes one channel (a 2-D array or a 3-D one
    whose last axis has length 1), RGB2BGR and RGBA2BGR take three or four
    channels; each gives three channels and keeps height and width; any
    other channel count is refused with [cv2.error]. *)
Definition cvtColor (src : ndarray) (code : ColorCode) : Res ndarray :=
  match code, shape src with
  | COLOR_GRAY2BGR, [h; w] => Ok (mkArray [h; w; 3] (replicate_gray src))
  | COLOR_GRAY2BGR, [h; w; 1] => Ok (mkArray [h; w; 3] (replicate_gray src))
  | (COLOR_RGBA2BGR | COLOR_RGB2BGR), [h; w; c] =>
      if (c =? 3)%nat || (c =? 4)%nat
      then Ok (mkArray [h; w; 3] (swap_rb src))
      else Raise (error "Invalid number of channels in input image")
  | _, _ => Raise (error "Invalid number of channels in input image")
  end.

End Cv2.

(** ** The state of a request and the monad of statements *)

Inductive EngineName : Type := PaddleOCR | EasyOCR.

(** [files]: the paths that exist in persistent storage.  [calls]: the
    recognition calls made so far, oldest first (a record kept for the
    statements about which engine was invoked; the program does not read
    it).  [debug_lines] and [tmp_path]: the two locals of [ocr_receipt] that
    outlive a raise; [tmp_path = None] is ['tmp_path' not in locals()]. *)
Record State : Type := mkState {
  files : gset string;
  calls : list EngineName;
  debug_lines : list string;
  tmp_path : option string
}.

Definition M (A : Type) : Type := State -> Py.Res A * State.

Module Stmt.

Import Py.

Definition ret {A} (a : A) : M A := fun st => (Ok a, st).

Definition bind {A B} (m : M A) (k : A -> M B) : M B :=
  fun st =>
    match m st with
    | (Ok a, st') => k a st'
    | (Raise e, st') => (Raise e, st')
    end.

Definition raise {A} (e : Exn) : M A := fun st => (Raise e, st).

Definition lift {A} (r : Res A) : M A := fun st => (r, st).

(** [try: body / except Exception as e: handler e]. *)
Definition try_except {A} (body : M A) (handler : Exn -> M A) : M A :=
  fun st =>
    match body st with
    | (Ok a, st') => (Ok a, st')
    | (Raise e, st') => handler e st'
    end.

(** [try: body / finally: fin]: [fin] runs on every way out of [body]; an
    exception of [fin] itself replaces the outcome of [body]. *)
Definition try_finally {A} (body : M A) (fin : M unit) : M A :=
  fun st =>
    let '(r, st1) := body st in
    match fin st1 with
    | (Ok _, st2) => (r, st2)
    | (Raise e, st2) => (Raise e, st2)
    end.

(** [for x in xs: ...] where each round yields the values it appends. *)
Fixpoint for_each {A B} (body : A -> M (list B)) (xs : list A) : M (list B) :=
  match xs with
  | [] => ret []
  | x :: rest =>
      bind (body x) (fun ys => bind (for_each body rest) (fun zs => ret (ys ++ zs)))
  end.

End Stmt.

Declare Scope stmt_scope.
Delimit Scope stmt_scope with stmt.
Notation "x <- m ;; k" := (Stmt.bind m (fun x => k))
  (at level 100, m at next level, right associativity) : stmt_scope.
Notation "m ;;; k" := (Stmt.bind m (fun _ => k))
  (at level 100, right associativity) : stmt_scope.
Open Scope stmt_scope.

(** ** The operating system *)

Module Os.

Import Py Stmt.

Definition FileNotFoundError (p : string) : Exn :=
  traceback_of "FileNotFoundError" ("[Errno 2] No such file or directory: " +:+ repr_str p).
Definition FileExistsError : Exn :=
  traceback_of "FileExistsError" "[Errno 17] No usable temporary file name found".

(** [os.path.exists(p)]. *)
Definition path_exists (p : string) : M bool :=
  fun st => (Ok (bool_decide (p ∈ files st)), st).

(** [os.remove(p)]. *)
Definition remove (p : string) : M unit :=
  fun st =>
    if bool_decide (p ∈ files st)
    then (Ok tt, mkState (files st ∖ {[p]}) (calls st) (debug_lines st) (tmp_path st))
    else (Raise (FileNotFoundError p), st).

(** The first of the drawn names that does not exist yet. *)
Definition fresh_name (names : list string) (fs : gset string) : option string :=
  List.find (fun p => bool_decide (p ∉ fs)) names.

(** [tempfile.NamedTemporaryFile(delete=False, suffix=...)]: the names the
    module draws are tried in turn, and the first one that does not exist
    yet is created (exclusively); with no name left, [FileExistsError]. *)
Definition NamedTemporaryFile (names : list string) : M string :=
  fun st =>
    match fresh_name names (files st) with
    | Some p => (Ok p, mkState ({[p]} ∪ files st) (calls st) (debug_lines st) (tmp_path st))
    | None => (Raise FileExistsError, st)
    end.

End Os.

(** ** app.py, lines 9-47: the engine registry built when the module loads *)

(** A constructed engine: the outcome of its recognition call on a path. *)
Definition Engine : Type := string -> Py.Res Py.PyVal.

Record Globals : Type := mkGlobals {
  PADDLE_AVAILABLE : bool;
  EASY_AVAILABLE : bool;
  paddle_ocr : option Engine;
  easy_reader : option Engine;
  paddle_import_error : option string;
  easy_import_error : option string
}.

(** What the environment decides for one engine: the import raises, or it
    succeeds and the constructor then raises or gives the engine. *)
Inductive Import : Type :=
  | ImportRaises (e : Py.Exn)
  | Imported (construct : Py.Res Engine).

(** Lines 9-14. *)
Definition globals0 : Globals := mkGlobals false false None None None None.

(** Lines 16-21. *)
Definition import_paddle (imp : Import) (g : Globals) : Globals :=
  match imp with
  | Imported _ =>
      mkGlobals true (EASY_AVAILABLE g) (paddle_ocr g) (easy_reader g)
                (paddle_import_error g) (easy_import_error g)
  | ImportRaises e =>
      mkGlobals false (EASY_AVAILABLE g) (paddle_ocr g) (easy_reader g)
                (Some (Py.format_exc e)) (easy_import_error g)
  end.

(** Lines 23-28. *)
Definition import_easy (imp : Import) (g : Globals) : Globals :=
  match imp with
  | Imported _ =>
      mkGlobals (PADDLE_AVAILABLE g) true (paddle_ocr g) (easy_reader g)
                (paddle_import_error g) (easy_import_error g)
  | ImportRaises e =>
      mkGlobals (PADDLE_AVAILABLE g) false (paddle_ocr g) (easy_reader g)
                (paddle_import_error g) (Some (Py.format_exc e))
  end.

(** Calling the constructor: the name is bound only if the import passed. *)
Definition construct (name : string) (imp : Import) : Py.Res Engine :=
  match imp with
  | Imported c => c
  | ImportRaises _ =>
      Py.Raise (Py.traceback_of "NameError" ("name '" +:+ name +:+ "' is not defined"))
  end.

(** Lines 31-38. *)
Definition init_paddle (imp : Import) (g : Globals) : Globals :=
  if PADDLE_AVAILABLE g then
    match construct "PaddleOCR" imp with
    | Py.Ok engine =>
        mkGlobals (PADDLE_AVAILABLE g) (EASY_AVAILABLE g) (Some engine) (easy_reader g)
                  (paddle_import_error g) (easy_import_error g)
    | Py.Raise e =>
        mkGlobals false (EASY_AVAILABLE g) None (easy_reader g)
                  (Some (Py.format_exc e)) (easy_import_error g)
    end
  else g.

(** Lines 40-47. *)
Definition init_easy (imp : Import) (g : Globals) : Globals :=
  if EASY_AVAILABLE g then
    match construct "easyocr" imp with
    | Py.Ok engine =>
        mkGlobals (PADDLE_AVAILABLE g) (EASY_AVAILABLE g) (paddle_ocr g) (Some engine)
                  (paddle_import_error g) (easy_import_error g)
    | Py.Raise e =>
        mkGlobals (PADDLE_AVAILABLE g) false (paddle_ocr g) None
                  (paddle_import_error g) (Some (Py.format_exc e))
    end
  else g.

(** The globals once the module has loaded. *)
Definition module_init (paddle easy : Import) : Globals :=
  init_easy easy (init_paddle paddle (import_easy easy (import_paddle paddle globals0))).

(** ** app.py, lines 49-171: [ocr_receipt] *)

(** What the environment decides during one request: the names
    [tempfile] draws and the outcome of [cv2.imwrite]. *)
Record Env : Type := mkEnv {
  tmp_names : list string;
  imwrite : string -> ndarray -> Py.Res bool
}.

(** The argument of [ocr_receipt]: [None], a numpy array, or another image
    object (a PIL image), given by the array [np.array] makes of it. *)
Inductive ImageArg : Type :=
  | NoImage
  | Array (a : ndarray)
  | Pil (as_array : ndarray).

Module App.

Import Py Stmt.

Definition append_debug (line : string) : M unit :=
  fun st => (Ok tt, mkState (files st) (calls st) (debug_lines st ++ [line]) (tmp_path st)).

Definition get_debug : M (list string) := fun st => (Ok (debug_lines st), st).

Definition set_tmp_path (p : string) : M unit :=
  fun st => (Ok tt, mkState (files st) (calls st) (debug_lines st) (Some p)).

Definition get_tmp_path : M (option string) := fun st => (Ok (tmp_path st), st).

(** A recognition call, noted in [calls]. *)
Definition call (name : EngineName) (engine : Engine) (path : string) : M PyVal :=
  fun st => (engine path, mkState (files st) (calls st ++ [name]) (debug_lines st) (tmp_path st)).

(** [not s] for a [str]. *)
Definition is_empty (s : string) : bool :=
  match s with EmptyString => true | _ => false end.

(** [e or fallback] for a global that is [None] or a [str]. *)
Definition or_default (e : option string) (fallback : string) : string :=
  match e with
  | Some s => if is_empty s then fallback else s
  | None => fallback
  end.

(** Lines 64-72. *)
Definition to_bgr (image : ndarray) : Res ndarray :=
  if (ndim image =? 2)%nat then Cv2.cvtColor image Cv2.COLOR_GRAY2BGR
  else
    match shape image !! 2%nat with
    | None => Raise (IndexError "tuple index out of range")
    | Some c =>
        if (c =? 4)%nat then Cv2.cvtColor image Cv2.COLOR_RGBA2BGR
        else Cv2.cvtColor image Cv2.COLOR_RGB2BGR
    end.

Definition paddle_try_line : string := "Пробуем PaddleOCR...".
Definition paddle_returned_line : string := "PaddleOCR вернул результат.".
Definition paddle_unexpected_line : string := "Неожиданная структура результата PaddleOCR.".
Definition paddle_empty_line : string := "PaddleOCR вернул пустой текст.".
Definition paddle_error_line : string := "Ошибка при запуске PaddleOCR:".
Definition easy_try_line : string := "Пробуем EasyOCR...".
Definition easy_returned_line : string := "EasyOCR вернул результат.".
Definition easy_empty_line : string := "EasyOCR вернул пустой текст.".
Definition easy_error_line : string := "Ошибка при запуске EasyOCR:".

(** Lines 96-100. *)
Definition paddle_item (item : PyVal) : M (list PyVal) :=
  txt <- try_except (x <- lift (getitem item 1) ;; lift (getitem x 0))
                    (fun _ => ret (PyStr (str item))) ;;
  ret [txt].

(** Lines 93-102. *)
Definition paddle_page (page : PyVal) : M (list PyVal) :=
  if is_list page
  then items <- lift (iter page) ;; for_each paddle_item items
  else ret [PyStr (str page)].

(** Lines 88-106. *)
Definition paddle_lines (res : PyVal) : M (list PyVal) :=
  try_except
    (pages <- lift (iter res) ;; for_each paddle_page pages)
    (fun _ =>
       append_debug paddle_unexpected_line ;;;
       ret [PyStr (str res)]).

(** Lines 82-116; [Some] is a [return], [None] falls through. *)
Definition try_paddle (g : Globals) (path : string) : M (option (string * string)) :=
  match paddle_ocr g with
  | None => ret None
  | Some engine =>
      append_debug paddle_try_line ;;;
      try_except
        (res <- call PaddleOCR engine path ;;
         append_debug paddle_returned_line ;;;
         lines <- paddle_lines res ;;
         joined <- lift (str_join nl lines) ;;
         let recognized := strip joined in
         Os.remove path ;;;
         (if is_empty recognized
          then append_debug paddle_empty_line
          else ret tt) ;;;
         dbg <- get_debug ;;
         ret (Some (recognized, join nl dbg)))
        (fun e =>
           append_debug paddle_error_line ;;;
           append_debug (format_exc e) ;;;
           ret None)
  end.

(** Lines 128-132. *)
Definition easy_item (item : PyVal) : M (list PyVal) :=
  txt <- try_except (lift (getitem item 1)) (fun _ => ret (PyStr (str item))) ;;
  ret [txt].

(** Lines 119-144. *)
Definition try_easy (g : Globals) (path : string) : M (option (string * string)) :=
  match easy_reader g with
  | None => ret None
  | Some engine =>
      append_debug easy_try_line ;;;
      try_except
        (res <- call EasyOCR engine path ;;
         append_debug easy_returned_line ;;;
         items <- lift (iter res) ;;
         lines <- for_each easy_item items ;;
         joined <- lift (str_join nl lines) ;;
         let recognized := strip joined in
         Os.remove path ;;;
         (if is_empty recognized
          then append_debug easy_empty_line
          else ret tt) ;;;
         dbg <- get_debug ;;
         ret (Some (recognized, join nl dbg)))
        (fun e =>
           append_debug easy_error_line ;;;
           append_debug (format_exc e) ;;;
           try_except (Os.remove path) (fun _ => ret tt) ;;;
           ret None)
  end.

Definition no_engine_line : string :=
  "Ни PaddleOCR, ни EasyOCR не доступны или обе вернули ошибку.".
Definition paddle_unavailable_line : string :=
  "PaddleOCR недоступен. Ошибка импорта/инициализации:".
Definition easy_unavailable_line : string :=
  "EasyOCR недоступен. Ошибка импорта/инициализации:".
Definition no_detail : string := "нет дополнительной информации".

(** Lines 155-158. *)
Definition hint0 : string := nl +:+ "Рекомендации:".
Definition hint1 : string :=
  "1) Установите paddleocr и paddlepaddle (pip install paddleocr paddlepaddle) или easyocr (pip install easyocr).".
Definition hint2 : string :=
  "2) Проверьте, что команда запускается в том же окружении, где установлены пакеты.".
Definition hint3 : string :=
  "3) Если используете Windows и возникает ошибка установки paddlepaddle, попробуйте подходящий wheel с официального сайта paddlepaddle.".
Definition hints : list string := [hint0; hint1; hint2; hint3].

(** Lines 147-160. *)
Definition report_unavailable (g : Globals) : M (string * string) :=
  append_debug no_engine_line ;;;
  (if PADDLE_AVAILABLE g then ret tt
   else append_debug paddle_unavailable_line ;;;
        append_debug (or_default (paddle_import_error g) no_detail)) ;;;
  (if EASY_AVAILABLE g then ret tt
   else append_debug easy_unavailable_line ;;;
        append_debug (or_default (easy_import_error g) no_detail)) ;;;
  append_debug hint0 ;;;
  append_debug hint1 ;;;
  append_debug hint2 ;;;
  append_debug hint3 ;;;
  dbg <- get_debug ;;
  ret (EmptyString, join nl dbg).

Definition no_image_line : string := "Ошибка: изображение не загружено.".
Definition internal_error_line : string := "Внутренняя ошибка:".
Definition tmp_file_line (path : string) : string := "Временный файл: " +:+ path.

(** Lines 81-160: the engines in their fixed order. *)
Definition recognize (g : Globals) (path : string) : M (string * string) :=
  r <- try_paddle g path ;;
  match r with
  | Some out => ret out
  | None =>
      r <- try_easy g path ;;
      match r with
      | Some out => ret out
      | None => report_unavailable g
      end
  end.

(** Lines 55-160: the body of the outer [try]. *)
Definition ocr_receipt_try (g : Globals) (env : Env) (image : ImageArg)
  : M (string * string) :=
  match image with
  | NoImage => ret (EmptyString, no_image_line)
  | Array a | Pil a =>
      img_bgr <- lift (to_bgr a) ;;
      path <- Os.NamedTemporaryFile (tmp_names env) ;;
      set_tmp_path path ;;;
      _ <- lift (imwrite env path img_bgr) ;;
      append_debug (tmp_file_line path) ;;;
      recognize g path
  end.

(** Lines 165-171. *)
Definition cleanup : M unit :=
  try_except
    (p <- get_tmp_path ;;
     match p with
     | Some path =>
         there <- Os.path_exists path ;;
         if there then Os.remove path else ret tt
     | None => ret tt
     end)
    (fun _ => ret tt).

(** Lines 54-171. *)
Definition ocr_receipt_stmt (g : Globals) (env : Env) (image : ImageArg)
  : M (string * string) :=
  try_finally
    (try_except (ocr_receipt_try g env image)
       (fun e => ret (EmptyString, internal_error_line +:+ nl +:+ format_exc e)))
    cleanup.

End App.

(** One call of [ocr_receipt(image)] with persistent storage [fs]: the
    locals start fresh (line 53); the outcome and the state it leaves. *)
Definition ocr_receipt (g : Globals) (env : Env) (image : ImageArg) (fs : gset string)
  : Py.Res (string * string) * State :=
  App.ocr_receipt_stmt g env image (mkState fs [] [] None).

(** ** Reference definitions for the statements *)

(** [sub in s] for two [str]. *)
Fixpoint contains (sub s : string) : bool :=
  String.prefix sub s ||
  match s with
  | EmptyString => false
  | String _ rest => contains sub rest
  end.


(** The path of the temporary file when the request gets as far as the
    engines: an image was given, the conversion to BGR, the creation of the
    temporary file and [cv2.imwrite] did not raise. *)
Definition persisted (env : Env) (image : ImageArg) (fs : gset string) : option string :=
  match image with
  | NoImage => None
  | Array a | Pil a =>
      match App.to_bgr a with
      | Py.Raise _ => None
      | Py.Ok img_bgr =>
          match Os.fresh_name (tmp_names env) fs with
          | None => None
          | Some path =>
              match imwrite env path img_bgr with
              | Py.Ok _ => Some path
              | Py.Raise _ => None
              end
          end
      end
  end.

(** The extractors as section 4.4 of the specification words them, as plain
    functions: read the text field at its fixed position, fall back to the
    rendering of the whole item; the lines in the order of emission. *)
Module Extract.

Import Py.

(** Variant A reads [item[1][0]], variant B reads [item[1]]. *)
Definition read_A (item : PyVal) : Res PyVal :=
  match getitem item 1 with
  | Ok x => getitem x 0
  | Raise e => Raise e
  end.

Definition read_B (item : PyVal) : Res PyVal := getitem item 1.

Definition token (read : PyVal -> Res PyVal) (item : PyVal) : PyVal :=
  match read item with
  | Ok txt => txt
  | Raise _ => PyStr (str item)
  end.

(** A page that is not a list is one line, its rendering. *)
Definition page_tokens_A (page : PyVal) : list PyVal :=
  match page with
  | PyList items => List.map (token read_A) items
  | _ => [PyStr (str page)]
  end.

(** A result that cannot be iterated is one line, its rendering. *)
Definition tokens_A (res : PyVal) : list PyVal :=
  match iter res with
  | Ok pages => List.flat_map page_tokens_A pages
  | Raise _ => [PyStr (str res)]
  end.

Definition notes_A (res : PyVal) : list string :=
  match iter res with
  | Ok _ => []
  | Raise _ => [App.paddle_unexpected_line]
  end.

(** Joined by newlines, then stripped. *)
Definition text_of (tokens : list PyVal) : Res string :=
  match str_join nl tokens with
  | Ok joined => Ok (strip joined)
  | Raise e => Raise e
  end.

Definition answer_A (res : PyVal) : Res string := text_of (tokens_A res).

Definition answer_B (res : PyVal) : Res string :=
  match iter res with
  | Ok items => text_of (List.map (token read_B) items)
  | Raise e => Raise e
  end.

(** One attempt: the recognition call, then the extraction. *)
Definition attempt (engine : Engine) (answer : PyVal -> Res string) (path : string)
  : Res string :=
  match engine path with
  | Ok res => answer res
  | Raise e => Raise e
  end.

(** The trace entries one attempt leaves. *)
Definition paddle_log (engine : Engine) (path : string) : list string :=
  App.paddle_try_line ::
  match engine path with
  | Raise e => [App.paddle_error_line; format_exc e]
  | Ok res =>
      App.paddle_returned_line :: notes_A res ++
      match answer_A res with
      | Raise e => [App.paddle_error_line; format_exc e]
      | Ok text => if App.is_empty text then [App.paddle_empty_line] else []
      end
  end.

Definition easy_log (engine : Engine) (path : string) : list string :=
  App.easy_try_line ::
  match engine path with
  | Raise e => [App.easy_error_line; format_exc e]
  | Ok res =>
      App.easy_returned_line ::
      match answer_B res with
      | Raise e => [App.easy_error_line; format_exc e]
      | Ok text => if App.is_empty text then [App.easy_empty_line] else []
      end
  end.

(** What the closing report lists: each engine whose flag is off, with the
    failure detail stored for it. *)
Definition unavailable_entries (g : Globals) : list string :=
  (if PADDLE_AVAILABLE g then []
   else [App.paddle_unavailable_line; App.or_default (paddle_import_error g) App.no_detail])
  ++
  (if EASY_AVAILABLE g then []
   else [App.easy_unavailable_line; App.or_default (easy_import_error g) App.no_detail]).

End Extract.

(** The registry entry of one engine, read off what the environment
    decided for it: the engine when it was imported and constructed, else
    the failure detail that was stored. *)
Definition engine_of (imp : Import) : option Engine :=
  match imp with
  | Imported (Py.Ok engine) => Some engine
  | _ => None
  end.

Definition failure_detail (imp : Import) : option string :=
  match imp with
  | ImportRaises e => Some (Py.format_exc e)
  | Imported (Py.Raise e) => Some (Py.format_exc e)
  | Imported (Py.Ok _) => None
  end.

Definition available (imp : Import) : bool :=
  match engine_of imp with Some _ => true | None => false end.

(** The trace entries of the attempts, an unavailable engine leaving none. *)
Definition paddle_entries (imp : Import) (path : string) : list string :=
  match engine_of imp with
  | Some engine => Extract.paddle_log engine path
  | None => []
  end.

Definition easy_entries (imp : Import) (path : string) : list string :=
  match engine_of imp with
  | Some engine => Extract.easy_log engine path
  | None => []
  end.

(** The entries that list an unavailable engine with its failure detail. *)
Definition unavailable_report (line : string) (imp : Import) : list string :=
  match engine_of imp with
  | Some _ => []
  | None => [line; App.or_default (failure_detail imp) App.no_detail]
  end.

(** Concrete requests, for the examples. *)
Module Scenario.

Import Py.

Definition box : PyVal :=
  PyList [PyList [PyInt 10; PyInt 12]; PyList [PyInt 90; PyInt 12];
          PyList [PyInt 90; PyInt 30]; PyList [PyInt 10; PyInt 30]].

Definition path : string := "/tmp/tmpk3v9x1qa.jpg".
Definition env : Env := mkEnv [path] (fun _ _ => Ok true).
Definition rgb : ImageArg := Array (mkArray [2; 2; 3]%nat (fun _ => 7%Z)).
Definition gray2 : ndarray :=
  mkArray [1; 2]%nat (fun idx => match idx with [_; j] => Z.of_nat j | _ => 0%Z end).

Definition no_paddle : Import :=
  ImportRaises (traceback_of "ModuleNotFoundError" "No module named 'paddleocr'").
Definition no_easy : Import :=
  Imported (Raise (traceback_of "RuntimeError" "CUDA is not available")).

Definition item_total : PyVal := PyTuple [box; PyTuple [PyStr "Total 500"; PyFloat "0.9"]].
Definition item_thanks : PyVal := PyTuple [box; PyTuple [PyStr "Thank you"; PyFloat "0.8"]].
Definition two_items : PyVal := PyList [PyList [item_total; item_thanks]].
Definition two_items_flat : PyVal := PyList [item_total; item_thanks].
Definition nothing_found : PyVal := PyList [PyList []].
Definition one_malformed : PyVal :=
  PyList [PyList [item_total; PyList [box]; item_thanks]].
Definition receipt_ok : PyVal := PyList [PyTuple [box; PyStr "Receipt OK"]].

Definition returns (res : PyVal) : Import := Imported (Ok (fun _ => Ok res)).
Definition boom : Exn := traceback_of "RuntimeError" "model file is missing".
Definition raises : Import := Imported (Ok (fun _ => Raise boom)).

End Scenario.

(** How a trace accounts for an empty text. *)
Inductive Explained : string -> Prop :=
  | explained_no_image : Explained App.no_image_line
  | explained_internal (e : Py.Exn) :
      Explained (App.internal_error_line +:+ Py.nl +:+ Py.format_exc e)
  | explained_empty_text (before : list string) (line : string) :
      line = App.paddle_empty_line \/ line = App.easy_empty_line ->
      Explained (Py.join Py.nl (before ++ [line]))
  | explained_no_engine (before unavailable : list string) :
      Explained (Py.join Py.nl (before ++ [App.no_engine_line] ++ unavailable ++ App.hints)).

(** ** Reference definitions for the further properties *)

(** PaddleOCR is constructed and its attempt on [path] gives a text. *)
Definition paddle_answers (g : Globals) (path : string) : bool :=
  match paddle_ocr g with
  | Some engine =>
      match Extract.attempt engine Extract.answer_A path with
      | Py.Ok _ => true
      | Py.Raise _ => false
      end
  | None => false
  end.

(** The recognition calls of a request that reaches the engines. *)
Definition expected_calls (g : Globals) (path : string) : list EngineName :=
  match paddle_ocr g with Some _ => [PaddleOCR] | None => [] end
  ++ if paddle_answers g path then []
     else match easy_reader g with Some _ => [EasyOCR] | None => [] end.

(** The exception that stops a request before the engines, if any: from the
    conversion to BGR, from the creation of the temporary file, or from
    [cv2.imwrite]. *)
Definition failure_before_engines (env : Env) (image : ImageArg) (fs : gset string)
  : option Py.Exn :=
  match image with
  | NoImage => None
  | Array a | Pil a =>
      match App.to_bgr a with
      | Py.Raise e => Some e
      | Py.Ok img_bgr =>
          match Os.fresh_name (tmp_names env) fs with
          | None => Some Os.FileExistsError
          | Some path =>
              match imwrite env path img_bgr with
              | Py.Ok _ => None
              | Py.Raise e => Some e
              end
          end
      end
  end.

(** [isinstance(v, str)]. *)
Definition is_str (v : Py.PyVal) : bool :=
  match v with Py.PyStr _ => true | _ => false end.

(* ===================================================================== *)
(** * Part II. Lemmas and theorems *)
(* ===================================================================== *)

Import Py Stmt.

(** ** Strings and joins *)

Lemma append_nil_inv (s t : string) : s +:+ t = EmptyString -> s = EmptyString.
Proof. destruct s; simpl; [reflexivity | discriminate]. Qed.

Lemma append_nil_r_inv (s t : string) : s +:+ t = EmptyString -> t = EmptyString.
Proof. destruct s; simpl; [auto | discriminate]. Qed.

(** An empty join has only empty entries. *)
Lemma join_nil_inv (sep : string) (l : list string) :
  join sep l = EmptyString -> Forall (fun x => x = EmptyString) l.
Proof.
  induction l as [| x [| y rest] IH]; intros H.
  - constructor.
  - constructor; [exact H | constructor].
  - change (x +:+ sep +:+ join sep (y :: rest) = EmptyString) in H.
    constructor.
    + eapply append_nil_inv; exact H.
    + apply IH. eapply append_nil_r_inv. eapply append_nil_r_inv. exact H.
Qed.

Lemma join_not_empty (sep x : string) (l : list string) :
  x ∈ l -> x <> EmptyString -> join sep l <> EmptyString.
Proof.
  intros Hin Hx Hj. apply join_nil_inv in Hj.
  rewrite Forall_forall in Hj. apply Hx, Hj, Hin.
Qed.

(** ** The statements of the monad *)

Lemma for_each_pure {A B} (body : A -> M (list B)) (f : A -> list B) (xs : list A) :
  (forall x st, body x st = (Ok (f x), st)) ->
  forall st, for_each body xs st = (Ok (List.flat_map f xs), st).
Proof.
  intros Hbody. induction xs as [| x rest IH]; intros st; simpl.
  - reflexivity.
  - unfold bind. rewrite Hbody, IH. reflexivity.
Qed.

Lemma flat_map_singleton {A B} (f : A -> B) (xs : list A) :
  List.flat_map (fun x => [f x]) xs = List.map f xs.
Proof. induction xs; simpl; congruence. Qed.

Ltac norm_lists := repeat (rewrite <- app_assoc; simpl); rewrite ?app_nil_r.

(** ** The extractors run as the reference functions say *)

Lemma paddle_item_run (item : PyVal) (st : State) :
  App.paddle_item item st = (Ok [Extract.token Extract.read_A item], st).
Proof.
  unfold App.paddle_item, Extract.token, Extract.read_A, bind, try_except, lift, ret.
  destruct (getitem item 1) as [x |]; [destruct (getitem x 0) |]; reflexivity.
Qed.

Lemma easy_item_run (item : PyVal) (st : State) :
  App.easy_item item st = (Ok [Extract.token Extract.read_B item], st).
Proof.
  unfold App.easy_item, Extract.token, Extract.read_B, bind, try_except, lift, ret.
  destruct (getitem item 1); reflexivity.
Qed.

Lemma paddle_page_run (page : PyVal) (st : State) :
  App.paddle_page page st = (Ok (Extract.page_tokens_A page), st).
Proof.
  destruct page; try reflexivity.
  unfold App.paddle_page, bind, lift; simpl.
  rewrite (for_each_pure _ (fun x => [Extract.token Extract.read_A x]))
    by apply paddle_item_run.
  rewrite flat_map_singleton. reflexivity.
Qed.

Lemma paddle_lines_run (res : PyVal) (st : State) :
  App.paddle_lines res st =
  (Ok (Extract.tokens_A res),
   mkState (files st) (calls st) (debug_lines st ++ Extract.notes_A res) (tmp_path st)).
Proof.
  unfold App.paddle_lines, Extract.tokens_A, Extract.notes_A, try_except, bind, lift.
  destruct (iter res) as [pages | e].
  - rewrite (for_each_pure _ Extract.page_tokens_A) by apply paddle_page_run.
    rewrite app_nil_r. destruct st; reflexivity.
  - reflexivity.
Qed.

(** ** One engine *)

Lemma remove_present (p : string) (st : State) :
  p ∈ files st ->
  Os.remove p st = (Ok tt, mkState (files st ∖ {[p]}) (calls st) (debug_lines st) (tmp_path st)).
Proof. intros H. unfold Os.remove. rewrite bool_decide_true by exact H. reflexivity. Qed.

Lemma try_paddle_none (g : Globals) (p : string) (st : State) :
  paddle_ocr g = None -> App.try_paddle g p st = (Ok None, st).
Proof. intros H. unfold App.try_paddle. rewrite H. reflexivity. Qed.

Lemma try_easy_none (g : Globals) (p : string) (st : State) :
  easy_reader g = None -> App.try_easy g p st = (Ok None, st).
Proof. intros H. unfold App.try_easy. rewrite H. reflexivity. Qed.

Lemma try_paddle_run (g : Globals) (engine : Engine) (p : string) (st : State) :
  paddle_ocr g = Some engine ->
  p ∈ files st ->
  App.try_paddle g p st =
  (Ok match Extract.attempt engine Extract.answer_A p with
      | Ok text => Some (text, join nl (debug_lines st ++ Extract.paddle_log engine p))
      | Raise _ => None
      end,
   mkState
     match Extract.attempt engine Extract.answer_A p with
     | Ok _ => files st ∖ {[p]}
     | Raise _ => files st
     end
     (calls st ++ [PaddleOCR])
     (debug_lines st ++ Extract.paddle_log engine p)
     (tmp_path st)).
Proof.
  intros Hg Hp. unfold App.try_paddle. rewrite Hg.
  unfold Extract.attempt, Extract.paddle_log, bind, try_except, App.append_debug, App.call.
  simpl. destruct (engine p) as [res | e]; simpl.
  - rewrite paddle_lines_run. simpl.
    unfold Extract.answer_A, Extract.text_of, lift.
    destruct (str_join nl (Extract.tokens_A res)) as [joined | e]; simpl.
    + rewrite remove_present by exact Hp. simpl.
      unfold App.get_debug, ret.
      destruct (App.is_empty (strip joined)); simpl; norm_lists; reflexivity.
    + norm_lists. reflexivity.
  - norm_lists. reflexivity.
Qed.

Lemma try_easy_run (g : Globals) (engine : Engine) (p : string) (st : State) :
  easy_reader g = Some engine ->
  p ∈ files st ->
  App.try_easy g p st =
  (Ok match Extract.attempt engine Extract.answer_B p with
      | Ok text => Some (text, join nl (debug_lines st ++ Extract.easy_log engine p))
      | Raise _ => None
      end,
   mkState (files st ∖ {[p]}) (calls st ++ [EasyOCR])
     (debug_lines st ++ Extract.easy_log engine p) (tmp_path st)).
Proof.
  intros Hg Hp. unfold App.try_easy. rewrite Hg.
  unfold Extract.attempt, Extract.easy_log, bind, try_except, App.append_debug, App.call.
  simpl. destruct (engine p) as [res | e]; simpl.
  - unfold Extract.answer_B, Extract.text_of, lift.
    destruct (iter res) as [items | e]; simpl.
    + rewrite (for_each_pure _ (fun x => [Extract.token Extract.read_B x]))
        by apply easy_item_run.
      rewrite flat_map_singleton.
      destruct (str_join nl (List.map (Extract.token Extract.read_B) items))
        as [joined | e]; simpl.
      * rewrite remove_present by exact Hp. simpl.
        unfold App.get_debug, ret.
        destruct (App.is_empty (strip joined)); simpl; norm_lists; reflexivity.
      * rewrite remove_present by exact Hp. simpl. norm_lists. reflexivity.
    + rewrite remove_present by exact Hp. simpl. norm_lists. reflexivity.
  - rewrite remove_present by exact Hp. simpl. norm_lists. reflexivity.
Qed.

Lemma report_unavailable_run (g : Globals) (st : State) :
  App.report_unavailable g st =
  (Ok (EmptyString,
       join nl (debug_lines st ++ [App.no_engine_line]
                ++ Extract.unavailable_entries g ++ App.hints)),
   mkState (files st) (calls st)
     (debug_lines st ++ [App.no_engine_line] ++ Extract.unavailable_entries g ++ App.hints)
     (tmp_path st)).
Proof.
  unfold App.report_unavailable, Extract.unavailable_entries, App.hints,
    bind, App.append_debug, App.get_debug, ret.
  destruct (PADDLE_AVAILABLE g), (EASY_AVAILABLE g); simpl; norm_lists; reflexivity.
Qed.

(** ** The temporary file *)

Lemma fresh_name_fresh (names : list string) (fs : gset string) (p : string) :
  Os.fresh_name names fs = Some p -> p ∉ fs.
Proof.
  unfold Os.fresh_name. intros H. apply find_some in H as [_ H].
  apply bool_decide_eq_true in H. exact H.
Qed.

Lemma created_then_removed (p : string) (fs : gset string) :
  p ∉ fs -> ({[p]} ∪ fs) ∖ {[p]} = fs.
Proof. set_solver. Qed.

Lemma removed_twice (p : string) (fs : gset string) : (fs ∖ {[p]}) ∖ {[p]} = fs ∖ {[p]}.
Proof. set_solver. Qed.

Lemma cleanup_run (st : State) :
  App.cleanup st =
  (Ok tt,
   mkState match tmp_path st with Some p => files st ∖ {[p]} | None => files st end
     (calls st) (debug_lines st) (tmp_path st)).
Proof.
  unfold App.cleanup, try_except, bind, App.get_tmp_path, Os.path_exists.
  destruct st as [fs cs dbg [p |]]; simpl; [| reflexivity].
  destruct (bool_decide (p ∈ fs)) eqn:Hin.
  - apply bool_decide_eq_true in Hin. rewrite remove_present by exact Hin. reflexivity.
  - apply bool_decide_eq_false in Hin. unfold ret. do 2 f_equal.
    f_equal. set_solver.
Qed.

(** The function as a whole, from the outcome of the outer [try] body. *)
Lemma ocr_receipt_run (g : Globals) (env : Env) (image : ImageArg) (fs : gset string) :
  ocr_receipt g env image fs =
  let '(r, st) := App.ocr_receipt_try g env image (mkState fs [] [] None) in
  (match r with
   | Ok out => Ok out
   | Raise e => Ok (EmptyString, App.internal_error_line +:+ nl +:+ format_exc e)
   end,
   mkState match tmp_path st with Some p => files st ∖ {[p]} | None => files st end
     (calls st) (debug_lines st) (tmp_path st)).
Proof.
  unfold ocr_receipt, App.ocr_receipt_stmt, try_finally, try_except.
  destruct (App.ocr_receipt_try g env image (mkState fs [] [] None)) as [[out | e] st];
    unfold ret; rewrite cleanup_run; reflexivity.
Qed.

(** Up to the engines, when nothing raises. *)
Lemma ocr_receipt_try_persisted (g : Globals) (env : Env) (image : ImageArg)
    (fs : gset string) (p : string) :
  persisted env image fs = Some p ->
  App.ocr_receipt_try g env image (mkState fs [] [] None) =
  App.recognize g p (mkState ({[p]} ∪ fs) [] [App.tmp_file_line p] (Some p)).
Proof.
  unfold persisted, App.ocr_receipt_try. intros H.
  destruct image as [| a | a]; [discriminate | |];
    (destruct (App.to_bgr a) as [img |]; [| discriminate];
     destruct (Os.fresh_name (tmp_names env) fs) as [q |] eqn:Hq; [| discriminate];
     destruct (imwrite env q img) eqn:Hw; [| discriminate];
     injection H as ->;
     unfold bind, lift, Os.NamedTemporaryFile, App.set_tmp_path, App.append_debug;
     simpl; rewrite Hq; simpl; rewrite Hw; reflexivity).
Qed.

Lemma persisted_fresh (env : Env) (image : ImageArg) (fs : gset string) (p : string) :
  persisted env image fs = Some p -> p ∉ fs.
Proof.
  unfold persisted. intros H.
  destruct image as [| a | a]; [discriminate | |];
    (destruct (App.to_bgr a); [| discriminate];
     destruct (Os.fresh_name (tmp_names env) fs) as [q |] eqn:Hq; [| discriminate];
     destruct (imwrite env q _); [| discriminate];
     injection H as ->; eapply fresh_name_fresh; exact Hq).
Qed.

(** ** The engines in their order *)

Lemma explained_by_last (l : list string) (line : string) :
  line = App.paddle_empty_line \/ line = App.easy_empty_line ->
  last l = Some line ->
  Explained (join nl l).
Proof.
  intros Hline Hlast. apply last_Some in Hlast as [before ->].
  apply explained_empty_text. exact Hline.
Qed.

Ltac solve_last := repeat (rewrite ?last_app, ?last_cons; simpl); reflexivity.

Ltac solve_explained :=
  first
    [ apply explained_no_engine
    | eapply explained_by_last; [left; reflexivity | solve_last]
    | eapply explained_by_last; [right; reflexivity | solve_last] ].

(** [recognize] never raises; it leaves [tmp_path] alone and at most removes
    the temporary file; and an empty text comes with an explanation. *)
Lemma recognize_total (g : Globals) (p : string) (st : State) :
  p ∈ files st ->
  exists text trace st',
    App.recognize g p st = (Ok (text, trace), st')
    /\ tmp_path st' = tmp_path st
    /\ (files st' = files st \/ files st' = files st ∖ {[p]})
    /\ (text = EmptyString -> Explained trace).
Proof.
  intros Hp. unfold App.recognize, bind.
  destruct (paddle_ocr g) as [pe |] eqn:Hpe;
    [ rewrite (try_paddle_run g pe) by assumption;
      unfold Extract.paddle_log, Extract.attempt;
      destruct (pe p) as [res | e]; [destruct (Extract.answer_A res) as [text | e] |]
    | rewrite try_paddle_none by assumption ];
    try (destruct (easy_reader g) as [ee |] eqn:Hee;
         [ rewrite (try_easy_run g ee) by (simpl; assumption);
           unfold Extract.easy_log, Extract.attempt;
           destruct (ee p) as [res' | e'];
           [destruct (Extract.answer_B res') as [text' | e'] |]
         | rewrite try_easy_none by assumption ]);
    rewrite ?report_unavailable_run;
    (do 3 eexists; split; [reflexivity |];
     split; [reflexivity |];
     split; [solve [left; reflexivity | right; reflexivity] |]);
    intros Htext; cbn [debug_lines] in *; try subst; cbn [App.is_empty];
    solve_explained.
Qed.

(** ** The registry *)

(** What loading the module leaves in the globals, engine by engine: the
    flag is on exactly when the engine was constructed, and an engine that
    is off has the failure detail of its import or of its constructor. *)
Lemma module_init_registry (paddle easy : Import) :
  module_init paddle easy =
  mkGlobals (available paddle) (available easy) (engine_of paddle) (engine_of easy)
    (failure_detail paddle) (failure_detail easy).
Proof.
  destruct paddle as [e1 | [eng1 | e1]], easy as [e2 | [eng2 | e2]]; reflexivity.
Qed.

Lemma unavailable_entries_init (paddle easy : Import) :
  Extract.unavailable_entries (module_init paddle easy) =
  unavailable_report App.paddle_unavailable_line paddle
  ++ unavailable_report App.easy_unavailable_line easy.
Proof.
  rewrite module_init_registry.
  unfold Extract.unavailable_entries, unavailable_report, available; simpl.
  destruct (engine_of paddle), (engine_of easy); reflexivity.
Qed.

(** ** Explanations *)


(** ** The body of the outer [try], on every path *)

(** Whatever happens in the body, the storage it leaves is the one it found,
    with or without the temporary file, and [tmp_path] names that file as
    soon as it exists; a returned empty text is explained. *)
Lemma ocr_receipt_try_frame (g : Globals) (env : Env) (image : ImageArg) (fs : gset string) :
  exists r st,
    App.ocr_receipt_try g env image (mkState fs [] [] None) = (r, st)
    /\ match tmp_path st with
       | None => files st = fs
       | Some p => (p ∉ fs) /\ (files st = {[p]} ∪ fs \/ files st = fs)
       end
    /\ (forall text trace, r = Ok (text, trace) -> text = EmptyString -> Explained trace).
Proof.
  destruct (persisted env image fs) as [p |] eqn:Hpers.
  - pose proof (persisted_fresh _ _ _ _ Hpers) as Hfresh.
    rewrite (ocr_receipt_try_persisted g _ _ _ _ Hpers).
    destruct (recognize_total g p (mkState ({[p]} ∪ fs) [] [App.tmp_file_line p] (Some p)))
      as (text & trace & st' & Hrun & Htmp & Hfiles & Hexpl); [simpl; set_solver |].
    exists (Ok (text, trace)), st'. split; [exact Hrun |]. simpl in *. split.
    + rewrite Htmp. split; [exact Hfresh |].
      destruct Hfiles as [-> | ->]; [left; reflexivity | right].
      apply created_then_removed, Hfresh.
    + intros text0 trace0 [= <- <-]. exact Hexpl.
  - unfold persisted in Hpers. unfold App.ocr_receipt_try.
    destruct image as [| a | a].
    + do 2 eexists. split; [reflexivity |]. simpl. split; [reflexivity |].
      intros text trace [= <- <-] _. apply explained_no_image.
    + unfold bind, lift, Os.NamedTemporaryFile, App.set_tmp_path. simpl.
      destruct (App.to_bgr a) as [img | e].
      * destruct (Os.fresh_name (tmp_names env) fs) as [q |] eqn:Hq; simpl.
        -- destruct (imwrite env q img) as [b | e]; [discriminate |].
           do 2 eexists. split; [reflexivity |]. simpl.
           split; [| discriminate]. split; [| left; reflexivity].
           eapply fresh_name_fresh; exact Hq.
        -- do 2 eexists. split; [reflexivity |]. simpl. split; [reflexivity | discriminate].
      * do 2 eexists. split; [reflexivity |]. simpl. split; [reflexivity | discriminate].
    + unfold bind, lift, Os.NamedTemporaryFile, App.set_tmp_path. simpl.
      destruct (App.to_bgr a) as [img | e].
      * destruct (Os.fresh_name (tmp_names env) fs) as [q |] eqn:Hq; simpl.
        -- destruct (imwrite env q img) as [b | e]; [discriminate |].
           do 2 eexists. split; [reflexivity |]. simpl.
           split; [| discriminate]. split; [| left; reflexivity].
           eapply fresh_name_fresh; exact Hq.
        -- do 2 eexists. split; [reflexivity |]. simpl. split; [reflexivity | discriminate].
      * do 2 eexists. split; [reflexivity |]. simpl. split; [reflexivity | discriminate].
Qed.

(** A request that reaches the engines, from the outcome of [recognize]. *)
Lemma ocr_receipt_persisted (g : Globals) (env : Env) (image : ImageArg)
    (fs : gset string) (p : string) :
  persisted env image fs = Some p ->
  p ∈ files (mkState ({[p]} ∪ fs) [] [App.tmp_file_line p] (Some p))
  /\ ocr_receipt g env image fs =
     let '(r, st) :=
       App.recognize g p (mkState ({[p]} ∪ fs) [] [App.tmp_file_line p] (Some p)) in
     (match r with
      | Ok out => Ok out
      | Raise e => Ok (EmptyString, App.internal_error_line +:+ nl +:+ format_exc e)
      end,
      mkState match tmp_path st with Some q => files st ∖ {[q]} | None => files st end
        (calls st) (debug_lines st) (tmp_path st)).
Proof.
  intros Hpers. split; [simpl; set_solver |].
  rewrite ocr_receipt_run, (ocr_receipt_try_persisted g _ _ _ _ Hpers). reflexivity.
Qed.

(** Unfolds a request that reaches the engines down to the two attempts. *)
Ltac start_request Hpers :=
  match goal with
  | |- context [ocr_receipt ?g _ _ _] =>
      let Hrun := fresh "Hrun" in
      destruct (ocr_receipt_persisted g _ _ _ _ Hpers) as [Hin Hrun];
      rewrite !Hrun; clear Hrun;
      unfold App.recognize, bind
  end.

(** ** The claims *)

(** C5.  Called with [None], [ocr_receipt] returns the empty text with the
    trace saying that no image was loaded; it does not raise, it never sets
    [tmp_path] (no temporary file is created), calls no engine and leaves
    the storage as it was. *)
Theorem no_image_returns_at_once (g : Globals) (env : Env) (fs : gset string) :
  ocr_receipt g env NoImage fs =
  (Ok (EmptyString, App.no_image_line), mkState fs [] [] None).
Proof.
  rewrite ocr_receipt_run.
  unfold App.ocr_receipt_try, ret. simpl.
  reflexivity.
Qed.

(** C6.  On every path through [ocr_receipt] (a return from an engine, the
    closing report, an engine that raised, an error caught by the outer
    handler) the storage after the call is the storage before it: the
    temporary file named by [tmp_path], when one was created, is gone; and
    one is created on every request that reaches the engines. *)
Theorem temporary_file_is_removed (g : Globals) (env : Env) (image : ImageArg)
    (fs : gset string) :
  files (snd (ocr_receipt g env image fs)) = fs
  /\ (forall p, tmp_path (snd (ocr_receipt g env image fs)) = Some p ->
                p ∉ files (snd (ocr_receipt g env image fs)))
  /\ (forall p, persisted env image fs = Some p ->
                tmp_path (snd (ocr_receipt g env image fs)) = Some p).
Proof.
  rewrite ocr_receipt_run.
  destruct (ocr_receipt_try_frame g env image fs) as (r & st & Hrun & Hframe & _).
  rewrite Hrun. simpl.
  assert (Hfs : match tmp_path st with
                | Some p => files st ∖ {[p]}
                | None => files st
                end = fs).
  { destruct (tmp_path st) as [p |]; [| exact Hframe].
    destruct Hframe as [Hfresh [-> | ->]]; set_solver. }
  split; [exact Hfs |]. split.
  - intros p Hp. rewrite Hfs. rewrite Hp in Hframe. apply Hframe.
  - intros p Hpers.
    rewrite (ocr_receipt_try_persisted g _ _ _ _ Hpers) in Hrun.
    destruct (recognize_total g p (mkState ({[p]} ∪ fs) [] [App.tmp_file_line p] (Some p)))
      as (text & trace & st' & Hrun' & Htmp & _); [simpl; set_solver |].
    rewrite Hrun' in Hrun. injection Hrun as _ <-. exact Htmp.
Qed.




(** C4.  PaddleOCR is available and its call raises, EasyOCR is available
    and returns one item with the text "Receipt OK": the exception is caught,
    the text is "Receipt OK", and the trace holds the PaddleOCR failure (the
    error line and the whole formatted traceback) and after it the EasyOCR
    attempt and success entries. *)
Theorem failure_falls_back_to_second_engine (g : Globals) (env : Env) (image : ImageArg)
    (fs : gset string) (p : string) (engineA engineB : Engine) (e : Exn) (item : PyVal) :
  persisted env image fs = Some p ->
  paddle_ocr g = Some engineA ->
  engineA p = Raise e ->
  easy_reader g = Some engineB ->
  engineB p = Ok (PyList [item]) ->
  Extract.read_B item = Ok (PyStr "Receipt OK") ->
  fst (ocr_receipt g env image fs) =
    Ok ("Receipt OK",
        join nl [App.tmp_file_line p;
                 App.paddle_try_line; App.paddle_error_line; format_exc e;
                 App.easy_try_line; App.easy_returned_line])
  /\ calls (snd (ocr_receipt g env image fs)) = [PaddleOCR; EasyOCR].
Proof.
  intros Hpers HgA HcallA HgB HcallB Hitem. start_request Hpers.
  rewrite (try_paddle_run g engineA) by assumption.
  unfold Extract.attempt, Extract.paddle_log. rewrite HcallA.
  rewrite (try_easy_run g engineB) by (simpl; assumption).
  unfold Extract.attempt, Extract.easy_log. rewrite HcallB.
  unfold Extract.answer_B; simpl. unfold Extract.token. rewrite Hitem.
  split; reflexivity.
Qed.

Lemma failure_falls_back_to_second_engine_witness :
  fst (ocr_receipt (module_init Scenario.raises (Scenario.returns Scenario.receipt_ok))
         Scenario.env Scenario.rgb ∅) =
    Ok ("Receipt OK",
        join nl [App.tmp_file_line Scenario.path;
                 App.paddle_try_line; App.paddle_error_line; format_exc Scenario.boom;
                 App.easy_try_line; App.easy_returned_line])
  /\ calls (snd (ocr_receipt (module_init Scenario.raises
                                          (Scenario.returns Scenario.receipt_ok))
                   Scenario.env Scenario.rgb ∅)) = [PaddleOCR; EasyOCR].
Proof.
  eapply (failure_falls_back_to_second_engine _ _ _ _ Scenario.path);
    vm_compute; reflexivity.
Defined.

(** C2.  When the call of the first available engine succeeds and the
    extracted text is empty, [ocr_receipt] returns the empty text at once,
    the trace ending with that engine's empty-text entry: with PaddleOCR
    first, the only recognition call made is the one to PaddleOCR and
    EasyOCR is never invoked; with PaddleOCR unavailable, EasyOCR is the
    first and the last engine. *)
Theorem empty_text_short_circuits (g : Globals) (env : Env) (image : ImageArg)
    (fs : gset string) (p : string) :
  persisted env image fs = Some p ->
  (forall engine res,
     paddle_ocr g = Some engine ->
     engine p = Ok res ->
     Extract.answer_A res = Ok EmptyString ->
     fst (ocr_receipt g env image fs) =
       Ok (EmptyString,
           join nl ([App.tmp_file_line p; App.paddle_try_line; App.paddle_returned_line]
                    ++ Extract.notes_A res ++ [App.paddle_empty_line]))
     /\ calls (snd (ocr_receipt g env image fs)) = [PaddleOCR])
  /\ (forall engine res,
        paddle_ocr g = None ->
        easy_reader g = Some engine ->
        engine p = Ok res ->
        Extract.answer_B res = Ok EmptyString ->
        fst (ocr_receipt g env image fs) =
          Ok (EmptyString,
              join nl [App.tmp_file_line p; App.easy_try_line; App.easy_returned_line;
                       App.easy_empty_line])
        /\ calls (snd (ocr_receipt g env image fs)) = [EasyOCR]).
Proof.
  intros Hpers. split.
  - intros engine res Hg Hcall Hanswer. start_request Hpers.
    rewrite (try_paddle_run g engine) by assumption.
    unfold Extract.attempt, Extract.paddle_log. rewrite Hcall, Hanswer.
    split; reflexivity.
  - intros engine res Hnone Hg Hcall Hanswer. start_request Hpers.
    rewrite try_paddle_none by assumption.
    rewrite (try_easy_run g engine) by assumption.
    unfold Extract.attempt, Extract.easy_log. rewrite Hcall, Hanswer.
    split; reflexivity.
Qed.

Lemma empty_text_short_circuits_witness :
  fst (ocr_receipt (module_init (Scenario.returns Scenario.nothing_found)
                                (Scenario.returns Scenario.receipt_ok))
         Scenario.env Scenario.rgb ∅) =
    Ok (EmptyString,
        join nl [App.tmp_file_line Scenario.path; App.paddle_try_line;
                 App.paddle_returned_line; App.paddle_empty_line])
  /\ calls (snd (ocr_receipt (module_init (Scenario.returns Scenario.nothing_found)
                                          (Scenario.returns Scenario.receipt_ok))
                   Scenario.env Scenario.rgb ∅)) = [PaddleOCR].
Proof.
  refine (proj1 (empty_text_short_circuits _ _ _ _ Scenario.path _)
            (fun _ => Ok Scenario.nothing_found) Scenario.nothing_found _ _ _);
    vm_compute; reflexivity.
Defined.

(** C1, as the code has it.  On a request that reaches the engines, when
    every engine is unavailable or its attempt raised (the call, or the
    joining of its lines), [ocr_receipt] returns the empty text and a trace
    made of the entries of the attempts, the line that no engine answered,
    each unavailable engine with the failure detail stored for it, and the
    four fixed hints; with both engines unavailable the trace names both
    with their details.  An engine that answers with an empty text ends the
    request on its own entry instead, without the report. *)
Theorem no_engine_answers_report (paddle easy : Import) (env : Env) (image : ImageArg)
    (fs : gset string) (p : string) :
  persisted env image fs = Some p ->
  (forall engine, engine_of paddle = Some engine ->
     exists e, Extract.attempt engine Extract.answer_A p = Raise e) ->
  (forall engine, engine_of easy = Some engine ->
     exists e, Extract.attempt engine Extract.answer_B p = Raise e) ->
  fst (ocr_receipt (module_init paddle easy) env image fs) =
    Ok (EmptyString,
        join nl ([App.tmp_file_line p]
                 ++ paddle_entries paddle p ++ easy_entries easy p
                 ++ [App.no_engine_line]
                 ++ unavailable_report App.paddle_unavailable_line paddle
                 ++ unavailable_report App.easy_unavailable_line easy
                 ++ App.hints))
  /\ (engine_of paddle = None -> engine_of easy = None ->
      exists dp de,
        failure_detail paddle = Some dp /\ failure_detail easy = Some de
        /\ fst (ocr_receipt (module_init paddle easy) env image fs) =
           Ok (EmptyString,
               join nl ([App.tmp_file_line p; App.no_engine_line;
                         App.paddle_unavailable_line; App.or_default (Some dp) App.no_detail;
                         App.easy_unavailable_line; App.or_default (Some de) App.no_detail]
                        ++ App.hints))).
Proof.
  intros Hpers Hpaddle Heasy.
  assert (Hfirst :
    fst (ocr_receipt (module_init paddle easy) env image fs) =
    Ok (EmptyString,
        join nl ([App.tmp_file_line p]
                 ++ paddle_entries paddle p ++ easy_entries easy p
                 ++ [App.no_engine_line]
                 ++ unavailable_report App.paddle_unavailable_line paddle
                 ++ unavailable_report App.easy_unavailable_line easy
                 ++ App.hints))).
  { assert (HgA : paddle_ocr (module_init paddle easy) = engine_of paddle)
      by (rewrite module_init_registry; reflexivity).
    assert (HgB : easy_reader (module_init paddle easy) = engine_of easy)
      by (rewrite module_init_registry; reflexivity).
    start_request Hpers. unfold paddle_entries, easy_entries.
    destruct (engine_of paddle) as [engA |] eqn:HA.
    - destruct (Hpaddle engA eq_refl) as [eA HeA].
      rewrite (try_paddle_run _ engA) by assumption. rewrite HeA.
      destruct (engine_of easy) as [engB |] eqn:HB.
      + destruct (Heasy engB eq_refl) as [eB HeB].
        rewrite (try_easy_run _ engB) by (simpl; assumption). rewrite HeB.
        rewrite report_unavailable_run, unavailable_entries_init.
        simpl. norm_lists. reflexivity.
      + rewrite try_easy_none by assumption.
        rewrite report_unavailable_run, unavailable_entries_init.
        simpl. norm_lists. reflexivity.
    - rewrite try_paddle_none by assumption.
      destruct (engine_of easy) as [engB |] eqn:HB.
      + destruct (Heasy engB eq_refl) as [eB HeB].
        rewrite (try_easy_run _ engB) by (simpl; assumption). rewrite HeB.
        rewrite report_unavailable_run, unavailable_entries_init.
        simpl. norm_lists. reflexivity.
      + rewrite try_easy_none by assumption.
        rewrite report_unavailable_run, unavailable_entries_init.
        simpl. norm_lists. reflexivity. }
  split; [exact Hfirst |].
  intros HA HB. rewrite Hfirst.
  unfold paddle_entries, easy_entries, unavailable_report. rewrite HA, HB.
  destruct paddle as [e1 | [eng1 | e1]]; [| discriminate |];
    (destruct easy as [e2 | [eng2 | e2]]; [| discriminate |]);
    do 2 eexists; (split; [reflexivity |]); (split; [reflexivity |]); reflexivity.
Qed.

Lemma no_engine_answers_report_witness :
  fst (ocr_receipt (module_init Scenario.no_paddle Scenario.no_easy)
         Scenario.env Scenario.rgb ∅) =
    Ok (EmptyString,
        join nl ([App.tmp_file_line Scenario.path; App.no_engine_line;
                  App.paddle_unavailable_line;
                  format_exc (traceback_of "ModuleNotFoundError" "No module named 'paddleocr'");
                  App.easy_unavailable_line;
                  format_exc (traceback_of "RuntimeError" "CUDA is not available")]
                 ++ App.hints)).
Proof.
  refine (proj1 (no_engine_answers_report Scenario.no_paddle Scenario.no_easy
                   Scenario.env Scenario.rgb ∅ Scenario.path _ _ _)).
  - vm_compute; reflexivity.
  - intros engine H; discriminate H.
  - intros engine H; discriminate H.
Defined.

(** C1, as it is worded, fails: PaddleOCR is available and finds nothing,
    EasyOCR is unavailable; every available engine has produced an empty
    output, yet the trace ends on the empty-text entry of PaddleOCR and
    holds neither the entry for the unavailable EasyOCR nor the hints. *)
Lemma empty_answer_gets_no_report :
  Extract.attempt (fun _ => Ok Scenario.nothing_found) Extract.answer_A Scenario.path
    = Ok EmptyString
  /\ engine_of Scenario.no_easy = None
  /\ fst (ocr_receipt (module_init (Scenario.returns Scenario.nothing_found) Scenario.no_easy)
            Scenario.env Scenario.rgb ∅) =
       Ok (EmptyString,
           join nl [App.tmp_file_line Scenario.path; App.paddle_try_line;
                    App.paddle_returned_line; App.paddle_empty_line])
  /\ contains App.easy_unavailable_line
       (join nl [App.tmp_file_line Scenario.path; App.paddle_try_line;
                 App.paddle_returned_line; App.paddle_empty_line]) = false
  /\ contains App.hint1
       (join nl [App.tmp_file_line Scenario.path; App.paddle_try_line;
                 App.paddle_returned_line; App.paddle_empty_line]) = false.
Proof. repeat split; vm_compute; reflexivity. Qed.

(** ** Lines that are all [str] *)

Lemma strs_from_strs (i : nat) (ss : list string) :
  strs_from i (List.map PyStr ss) = Ok ss.
Proof.
  revert i. induction ss as [| s rest IH]; intros i; simpl.
  - reflexivity.
  - rewrite IH. reflexivity.
Qed.

Lemma str_join_strs (sep : string) (ss : list string) :
  str_join sep (List.map PyStr ss) = Ok (join sep ss).
Proof. unfold str_join. rewrite strs_from_strs. reflexivity. Qed.

Lemma tokens_of_texts (read : PyVal -> Res PyVal) (items : list PyVal) (texts : list string) :
  Forall2 (fun item text => read item = Ok (PyStr text)) items texts ->
  List.map (Extract.token read) items = List.map PyStr texts.
Proof.
  induction 1 as [| item text items texts Hread _ IH]; simpl.
  - reflexivity.
  - unfold Extract.token at 1. rewrite Hread, IH. reflexivity.
Qed.

Lemma text_of_around (read : PyVal -> Res PyVal) (before after : list PyVal)
    (item : PyVal) (e : Exn) (tb ta : list string) :
  read item = Raise e ->
  Forall2 (fun it text => read it = Ok (PyStr text)) before tb ->
  Forall2 (fun it text => read it = Ok (PyStr text)) after ta ->
  Extract.text_of (List.map (Extract.token read) (before ++ item :: after)) =
  Ok (strip (join nl (tb ++ str item :: ta))).
Proof.
  intros Hitem Hb Ha. rewrite List.map_app. simpl.
  rewrite (tokens_of_texts read before tb Hb), (tokens_of_texts read after ta Ha).
  unfold Extract.token. rewrite Hitem.
  change (PyStr (str item) :: List.map PyStr ta) with (List.map PyStr (str item :: ta)).
  rewrite <- List.map_app. unfold Extract.text_of. rewrite str_join_strs. reflexivity.
Qed.

(** C8.  An item whose text field cannot be read at its fixed position
    ([item[1][0]] for PaddleOCR, [item[1]] for EasyOCR) gives the rendering
    of the whole item as its line, and nothing is raised; the request then
    ends as usual, the texts of the items around it kept in their order. *)
Theorem malformed_item_is_rendered :
  (forall item e st,
     Extract.read_A item = Raise e ->
     App.paddle_item item st = (Ok [PyStr (str item)], st))
  /\ (forall item e st,
        Extract.read_B item = Raise e ->
        App.easy_item item st = (Ok [PyStr (str item)], st))
  /\ (forall g env image fs p engine before item after tb ta e,
        persisted env image fs = Some p ->
        paddle_ocr g = Some engine ->
        engine p = Ok (PyList [PyList (before ++ item :: after)]) ->
        Extract.read_A item = Raise e ->
        Forall2 (fun it text => Extract.read_A it = Ok (PyStr text)) before tb ->
        Forall2 (fun it text => Extract.read_A it = Ok (PyStr text)) after ta ->
        fst (ocr_receipt g env image fs) =
          Ok (strip (join nl (tb ++ str item :: ta)),
              join nl ([App.tmp_file_line p; App.paddle_try_line; App.paddle_returned_line]
                       ++ if App.is_empty (strip (join nl (tb ++ str item :: ta)))
                          then [App.paddle_empty_line] else [])))
  /\ (forall g env image fs p engine before item after tb ta e,
        persisted env image fs = Some p ->
        paddle_ocr g = None ->
        easy_reader g = Some engine ->
        engine p = Ok (PyList (before ++ item :: after)) ->
        Extract.read_B item = Raise e ->
        Forall2 (fun it text => Extract.read_B it = Ok (PyStr text)) before tb ->
        Forall2 (fun it text => Extract.read_B it = Ok (PyStr text)) after ta ->
        fst (ocr_receipt g env image fs) =
          Ok (strip (join nl (tb ++ str item :: ta)),
              join nl ([App.tmp_file_line p; App.easy_try_line; App.easy_returned_line]
                       ++ if App.is_empty (strip (join nl (tb ++ str item :: ta)))
                          then [App.easy_empty_line] else []))).
Proof.
  split; [| split; [| split]].
  - intros item e st H. rewrite paddle_item_run. unfold Extract.token. rewrite H. reflexivity.
  - intros item e st H. rewrite easy_item_run. unfold Extract.token. rewrite H. reflexivity.
  - intros g env image fs p engine before item after tb ta e Hpers Hg Hcall Hitem Hb Ha.
    start_request Hpers.
    rewrite (try_paddle_run g engine) by assumption.
    unfold Extract.attempt, Extract.paddle_log. rewrite Hcall.
    unfold Extract.answer_A, Extract.tokens_A, Extract.notes_A. simpl. rewrite app_nil_r.
    rewrite (text_of_around Extract.read_A before after item e tb ta Hitem Hb Ha).
    destruct (App.is_empty (strip (join nl (tb ++ str item :: ta)))); reflexivity.
  - intros g env image fs p engine before item after tb ta e Hpers Hnone Hg Hcall Hitem Hb Ha.
    start_request Hpers.
    rewrite try_paddle_none by assumption.
    rewrite (try_easy_run g engine) by assumption.
    unfold Extract.attempt, Extract.easy_log. rewrite Hcall.
    unfold Extract.answer_B. simpl.
    rewrite (text_of_around Extract.read_B before after item e tb ta Hitem Hb Ha).
    destruct (App.is_empty (strip (join nl (tb ++ str item :: ta)))); reflexivity.
Qed.

Lemma malformed_item_is_rendered_witness :
  fst (ocr_receipt (module_init (Scenario.returns Scenario.one_malformed) Scenario.no_easy)
         Scenario.env Scenario.rgb ∅) =
    Ok ("Total 500" +:+ nl +:+ "[[[10, 12], [90, 12], [90, 30], [10, 30]]]" +:+ nl
        +:+ "Thank you",
        join nl [App.tmp_file_line Scenario.path; App.paddle_try_line;
                 App.paddle_returned_line]).
Proof.
  refine (proj1 (proj2 (proj2 malformed_item_is_rendered))
            (module_init (Scenario.returns Scenario.one_malformed) Scenario.no_easy)
            Scenario.env Scenario.rgb ∅ Scenario.path (fun _ => Ok Scenario.one_malformed)
            [Scenario.item_total] (PyList [Scenario.box]) [Scenario.item_thanks]
            ["Total 500"] ["Thank you"]
            (IndexError "list index out of range") _ _ _ _ _ _);
    try (vm_compute; reflexivity);
    repeat constructor.
Defined.




(** C10.  Collecting the lines of a PaddleOCR result never raises, whatever
    the result: when the result cannot be iterated, the lines are the one
    rendering of the whole result; otherwise they are the lines of its
    pages in order, a page that is not a list being one line, its
    rendering. *)
Theorem paddle_lines_never_raises (res : PyVal) (st : State) :
  exists lines st',
    App.paddle_lines res st = (Ok lines, st')
    /\ (forall e, iter res = Raise e -> lines = [PyStr (str res)])
    /\ (forall pages, iter res = Ok pages ->
          lines = List.flat_map Extract.page_tokens_A pages
          /\ forall page, is_list page = false ->
               Extract.page_tokens_A page = [PyStr (str page)]).
Proof.
  rewrite paddle_lines_run. do 2 eexists. split; [reflexivity |].
  unfold Extract.tokens_A. split.
  - intros e ->. reflexivity.
  - intros pages ->. split; [reflexivity |].
    intros page Hpage. destruct page; try reflexivity. discriminate Hpage.
Qed.

(** ** Further examples *)

(** The two items must come inside a page.  Handed over as the result
    itself, each is taken for a page that is not a list and is rendered
    whole. *)
Example items_without_a_page_are_rendered :
  fst (ocr_receipt (module_init (Scenario.returns Scenario.two_items_flat) Scenario.no_easy)
         Scenario.env Scenario.rgb ∅) =
    Ok (str Scenario.item_total +:+ nl +:+ str Scenario.item_thanks,
        join nl [App.tmp_file_line Scenario.path; App.paddle_try_line;
                 App.paddle_returned_line]).
Proof. vm_compute. reflexivity. Qed.

(** A text field that is read but is not a [str] makes the join raise: the
    attempt counts as failed and the next engine is tried. *)
Example non_str_field_fails_the_attempt :
  fst (ocr_receipt
         (module_init
            (Scenario.returns (PyList [PyList [PyTuple [Scenario.box; PyTuple [PyInt 500]]]]))
            (Scenario.returns Scenario.receipt_ok))
         Scenario.env Scenario.rgb ∅) =
    Ok ("Receipt OK",
        join nl [App.tmp_file_line Scenario.path;
                 App.paddle_try_line; App.paddle_returned_line; App.paddle_error_line;
                 format_exc (TypeError "sequence item 0: expected str instance, int found");
                 App.easy_try_line; App.easy_returned_line]).
Proof. vm_compute. reflexivity. Qed.

(** A grey image given as a 2-D array is converted and the request goes on. *)
Example gray_image_is_accepted :
  persisted Scenario.env (Array Scenario.gray2) ∅ = Some Scenario.path.
Proof. vm_compute. reflexivity. Qed.

(** ** Further properties of the code *)

(** What [recognize] appends to the trace and to the record of calls. *)
Lemma recognize_summary (g : Globals) (p : string) (st : State) :
  p ∈ files st ->
  exists text more st',
    App.recognize g p st = (Ok (text, join nl (debug_lines st ++ more)), st')
    /\ debug_lines st' = debug_lines st ++ more
    /\ calls st' = calls st ++ expected_calls g p.
Proof.
  intros Hp. unfold App.recognize, bind, expected_calls, paddle_answers.
  destruct (paddle_ocr g) as [pe |] eqn:Hpe;
    [ rewrite (try_paddle_run g pe) by assumption;
      destruct (Extract.attempt pe Extract.answer_A p) as [text | e]
    | rewrite try_paddle_none by assumption ];
    try (destruct (easy_reader g) as [ee |] eqn:Hee;
         [ rewrite (try_easy_run g ee) by (simpl; assumption);
           destruct (Extract.attempt ee Extract.answer_B p) as [text' | e']
         | rewrite try_easy_none by assumption ]);
    rewrite ?report_unavailable_run;
    cbn [debug_lines calls files tmp_path];
    rewrite <- ?app_assoc;
    do 3 eexists; (split; [reflexivity |]); (split; [reflexivity |]);
    cbn [debug_lines calls]; rewrite <- ?app_assoc, ?app_nil_r; reflexivity.
Qed.

(** A request that does not reach the engines: [None] was given, or
    something raised before the first engine. *)
Lemma ocr_receipt_try_not_persisted (g : Globals) (env : Env) (image : ImageArg)
    (fs : gset string) :
  persisted env image fs = None ->
  exists st,
    calls st = [] /\ debug_lines st = []
    /\ match failure_before_engines env image fs with
       | Some e => App.ocr_receipt_try g env image (mkState fs [] [] None) = (Raise e, st)
       | None =>
           image = NoImage
           /\ App.ocr_receipt_try g env image (mkState fs [] [] None) =
              (Ok (EmptyString, App.no_image_line), st)
       end.
Proof.
  unfold persisted, failure_before_engines, App.ocr_receipt_try. intros H.
  destruct image as [| a | a].
  - eexists. split; [| split]; [| | split; reflexivity]; reflexivity.
  - unfold bind, lift, Os.NamedTemporaryFile, App.set_tmp_path. simpl.
    destruct (App.to_bgr a) as [img | e].
    + destruct (Os.fresh_name (tmp_names env) fs) as [q |] eqn:Hq; simpl.
      * destruct (imwrite env q img) as [b | e]; [discriminate |].
        eexists. split; [| split]; [| | reflexivity]; reflexivity.
      * eexists. split; [| split]; [| | reflexivity]; reflexivity.
    + eexists. split; [| split]; [| | reflexivity]; reflexivity.
  - unfold bind, lift, Os.NamedTemporaryFile, App.set_tmp_path. simpl.
    destruct (App.to_bgr a) as [img | e].
    + destruct (Os.fresh_name (tmp_names env) fs) as [q |] eqn:Hq; simpl.
      * destruct (imwrite env q img) as [b | e]; [discriminate |].
        eexists. split; [| split]; [| | reflexivity]; reflexivity.
      * eexists. split; [| split]; [| | reflexivity]; reflexivity.
    + eexists. split; [| split]; [| | reflexivity]; reflexivity.
Qed.

Lemma failure_means_not_persisted (env : Env) (image : ImageArg) (fs : gset string)
    (e : Exn) :
  failure_before_engines env image fs = Some e -> persisted env image fs = None.
Proof.
  unfold failure_before_engines, persisted.
  destruct image as [| a | a]; [discriminate | |];
    (destruct (App.to_bgr a); [| reflexivity];
     destruct (Os.fresh_name (tmp_names env) fs); [| reflexivity];
     destruct (imwrite env _ _); [discriminate | reflexivity]).
Qed.

(** X1.  Once the module has loaded, each engine has either its handle or a
    stored failure detail, never both and never neither: the flag is on
    exactly when the handle is there, and off exactly when a failure detail
    is stored. *)
Theorem registry_is_consistent (paddle easy : Import) :
  (PADDLE_AVAILABLE (module_init paddle easy) = true
   <-> exists engine, paddle_ocr (module_init paddle easy) = Some engine)
  /\ (PADDLE_AVAILABLE (module_init paddle easy) = false
      <-> exists detail, paddle_import_error (module_init paddle easy) = Some detail)
  /\ (EASY_AVAILABLE (module_init paddle easy) = true
      <-> exists engine, easy_reader (module_init paddle easy) = Some engine)
  /\ (EASY_AVAILABLE (module_init paddle easy) = false
      <-> exists detail, easy_import_error (module_init paddle easy) = Some detail).
Proof.
  rewrite module_init_registry. unfold available. simpl.
  destruct paddle as [e1 | [eng1 | e1]], easy as [e2 | [eng2 | e2]]; simpl;
    repeat split; intros H;
    first
      [ discriminate H
      | match type of H with ex _ => destruct H as [x H]; discriminate H end
      | reflexivity
      | eexists; reflexivity ].
Qed.

(** X2.  The registry entries of the two engines are independent: what
    happens to the import or the constructor of one engine changes nothing
    in the flag, the handle or the failure detail of the other. *)
Theorem registry_entries_are_independent (paddle paddle' easy easy' : Import) :
  (EASY_AVAILABLE (module_init paddle easy) = EASY_AVAILABLE (module_init paddle' easy)
   /\ easy_reader (module_init paddle easy) = easy_reader (module_init paddle' easy)
   /\ easy_import_error (module_init paddle easy)
      = easy_import_error (module_init paddle' easy))
  /\ (PADDLE_AVAILABLE (module_init paddle easy) = PADDLE_AVAILABLE (module_init paddle easy')
      /\ paddle_ocr (module_init paddle easy) = paddle_ocr (module_init paddle easy')
      /\ paddle_import_error (module_init paddle easy)
         = paddle_import_error (module_init paddle easy')).
Proof. rewrite !module_init_registry. repeat split; reflexivity. Qed.

(** X3.  The recognition calls of a request, in order: none when the
    request stops before the engines; otherwise PaddleOCR once if it is
    constructed, then EasyOCR once if it is constructed and PaddleOCR is
    missing or its attempt raised.  No engine is called twice and EasyOCR is
    never called before PaddleOCR. *)
Theorem calls_follow_the_priority_order (g : Globals) (env : Env) (image : ImageArg)
    (fs : gset string) :
  calls (snd (ocr_receipt g env image fs)) =
  match persisted env image fs with
  | Some p => expected_calls g p
  | None => []
  end.
Proof.
  destruct (persisted env image fs) as [p |] eqn:Hpers.
  - destruct (ocr_receipt_persisted g _ _ _ _ Hpers) as [Hin Hrun]. rewrite Hrun.
    destruct (recognize_summary g p _ Hin) as (text & more & st' & Hr & _ & Hc).
    rewrite Hr. simpl. exact Hc.
  - rewrite ocr_receipt_run.
    destruct (ocr_receipt_try_not_persisted g _ _ _ Hpers) as (st & Hc & _ & Hm).
    destruct (failure_before_engines env image fs) as [e |];
      [| destruct Hm as [_ Hm]]; rewrite Hm; simpl; exact Hc.
Qed.

(** X4.  The trace of every request that reaches the engines opens with the
    entry that names the temporary file, whatever the engines do. *)
Theorem trace_opens_with_the_temporary_file (g : Globals) (env : Env) (image : ImageArg)
    (fs : gset string) (p : string) :
  persisted env image fs = Some p ->
  exists text more,
    fst (ocr_receipt g env image fs) = Ok (text, join nl (App.tmp_file_line p :: more)).
Proof.
  intros Hpers.
  destruct (ocr_receipt_persisted g _ _ _ _ Hpers) as [Hin Hrun]. rewrite Hrun.
  destruct (recognize_summary g p _ Hin) as (text & more & st' & Hr & _ & _).
  rewrite Hr. simpl. exists text, more. reflexivity.
Qed.

Lemma trace_opens_with_the_temporary_file_witness :
  exists text more,
    fst (ocr_receipt (module_init Scenario.raises Scenario.no_easy)
           Scenario.env Scenario.rgb ∅) =
    Ok (text, join nl (App.tmp_file_line Scenario.path :: more)).
Proof.
  apply (trace_opens_with_the_temporary_file _ _ _ _ Scenario.path).
  vm_compute. reflexivity.
Defined.

(** X5.  The trace is never empty, also when a text is returned. *)
Theorem trace_is_never_empty (g : Globals) (env : Env) (image : ImageArg)
    (fs : gset string) :
  exists text trace,
    fst (ocr_receipt g env image fs) = Ok (text, trace) /\ trace <> EmptyString.
Proof.
  destruct (persisted env image fs) as [p |] eqn:Hpers.
  - destruct (ocr_receipt_persisted g _ _ _ _ Hpers) as [Hin Hrun]. rewrite Hrun.
    destruct (recognize_summary g p _ Hin) as (text & more & st' & Hr & _ & _).
    rewrite Hr. cbn [fst debug_lines app]. do 2 eexists. split; [reflexivity |].
    apply (join_not_empty nl (App.tmp_file_line p)).
    + apply list_elem_of_here.
    + discriminate.
  - rewrite ocr_receipt_run.
    destruct (ocr_receipt_try_not_persisted g _ _ _ Hpers) as (st & _ & _ & Hm).
    destruct (failure_before_engines env image fs) as [e |];
      [| destruct Hm as [_ Hm]]; rewrite Hm; simpl;
      do 2 eexists; (split; [reflexivity | discriminate]).
Qed.

(** X6.  When the conversion of the image, the creation of the temporary
    file or [cv2.imwrite] raises, the outer handler returns the empty text
    with the internal-error line and the traceback of that exception; no
    engine is called and the storage is left as it was found. *)
Theorem error_before_the_engines_is_reported (g : Globals) (env : Env) (image : ImageArg)
    (fs : gset string) (e : Exn) :
  failure_before_engines env image fs = Some e ->
  fst (ocr_receipt g env image fs) =
    Ok (EmptyString, App.internal_error_line +:+ nl +:+ format_exc e)
  /\ calls (snd (ocr_receipt g env image fs)) = []
  /\ files (snd (ocr_receipt g env image fs)) = fs.
Proof.
  intros Hfail.
  pose proof (failure_means_not_persisted _ _ _ _ Hfail) as Hpers.
  destruct (ocr_receipt_try_not_persisted g _ _ _ Hpers) as (st & Hc & _ & Hm).
  rewrite Hfail in Hm.
  destruct (ocr_receipt_try_frame g env image fs) as (r & st0 & Hrun & Hframe & _).
  rewrite Hm in Hrun. injection Hrun as <- <-.
  rewrite ocr_receipt_run, Hm. simpl. split; [reflexivity |]. split; [exact Hc |].
  destruct (tmp_path st) as [q |]; [| exact Hframe].
  destruct Hframe as [Hfresh [-> | ->]]; set_solver.
Qed.

Lemma error_before_the_engines_is_reported_witness :
  fst (ocr_receipt (module_init (Scenario.returns Scenario.two_items) Scenario.no_easy)
         (mkEnv [Scenario.path] (fun _ _ => Raise Scenario.boom)) Scenario.rgb ∅) =
    Ok (EmptyString, App.internal_error_line +:+ nl +:+ format_exc Scenario.boom)
  /\ calls (snd (ocr_receipt (module_init (Scenario.returns Scenario.two_items)
                                          Scenario.no_easy)
                   (mkEnv [Scenario.path] (fun _ _ => Raise Scenario.boom))
                   Scenario.rgb ∅)) = []
  /\ files (snd (ocr_receipt (module_init (Scenario.returns Scenario.two_items)
                                          Scenario.no_easy)
                   (mkEnv [Scenario.path] (fun _ _ => Raise Scenario.boom))
                   Scenario.rgb ∅)) = ∅.
Proof.
  apply (error_before_the_engines_is_reported _ _ _ _ Scenario.boom).
  vm_compute. reflexivity.
Defined.

(** X7.  PaddleOCR has priority: when its attempt gives a text, the whole
    outcome of the request (text, trace, calls, storage) is the same
    whatever the rest of the registry holds; EasyOCR, its flag and both
    failure details play no part. *)
Theorem paddle_answer_ignores_the_rest (g g' : Globals) (env : Env) (image : ImageArg)
    (fs : gset string) (p : string) (engine : Engine) (text : string) :
  persisted env image fs = Some p ->
  paddle_ocr g = Some engine ->
  paddle_ocr g' = Some engine ->
  Extract.attempt engine Extract.answer_A p = Ok text ->
  ocr_receipt g env image fs = ocr_receipt g' env image fs
  /\ fst (ocr_receipt g env image fs) =
     Ok (text, join nl (App.tmp_file_line p :: Extract.paddle_log engine p)).
Proof.
  intros Hpers Hg Hg' Hanswer.
  destruct (ocr_receipt_persisted g _ _ _ _ Hpers) as [Hin Hrun].
  destruct (ocr_receipt_persisted g' _ _ _ _ Hpers) as [_ Hrun'].
  rewrite Hrun, Hrun'. unfold App.recognize, bind.
  rewrite (try_paddle_run g engine), (try_paddle_run g' engine) by assumption.
  rewrite Hanswer. split; reflexivity.
Qed.

Lemma paddle_answer_ignores_the_rest_witness :
  ocr_receipt (module_init (Scenario.returns Scenario.two_items) Scenario.no_easy)
    Scenario.env Scenario.rgb ∅
  = ocr_receipt (module_init (Scenario.returns Scenario.two_items)
                             (Scenario.returns Scenario.receipt_ok))
      Scenario.env Scenario.rgb ∅
  /\ fst (ocr_receipt (module_init (Scenario.returns Scenario.two_items) Scenario.no_easy)
            Scenario.env Scenario.rgb ∅) =
     Ok ("Total 500" +:+ nl +:+ "Thank you",
         join nl (App.tmp_file_line Scenario.path
                  :: Extract.paddle_log (fun _ => Ok Scenario.two_items) Scenario.path)).
Proof.
  apply (paddle_answer_ignores_the_rest _ _ _ _ _ Scenario.path
           (fun _ => Ok Scenario.two_items));
    vm_compute; reflexivity.
Defined.

(** X8.  The two extractors differ on a result that cannot be iterated:
    PaddleOCR's renders it as one line, EasyOCR's lets the [TypeError]
    reach the handler of the attempt.  With EasyOCR the only engine, such a
    result ends the request with the error entry, the traceback and the
    closing report, after the one call. *)
Theorem easy_result_not_iterable_fails (g : Globals) (env : Env) (image : ImageArg)
    (fs : gset string) (p : string) (engine : Engine) (res : PyVal) (e : Exn) :
  persisted env image fs = Some p ->
  paddle_ocr g = None ->
  easy_reader g = Some engine ->
  engine p = Ok res ->
  iter res = Raise e ->
  fst (ocr_receipt g env image fs) =
    Ok (EmptyString,
        join nl ([App.tmp_file_line p; App.easy_try_line; App.easy_returned_line;
                  App.easy_error_line; format_exc e; App.no_engine_line]
                 ++ Extract.unavailable_entries g ++ App.hints))
  /\ calls (snd (ocr_receipt g env image fs)) = [EasyOCR].
Proof.
  intros Hpers Hnone Hg Hcall Hiter. start_request Hpers.
  rewrite try_paddle_none by assumption.
  rewrite (try_easy_run g engine) by assumption.
  unfold Extract.attempt, Extract.easy_log, Extract.answer_B. rewrite Hcall, Hiter.
  rewrite report_unavailable_run. split; reflexivity.
Qed.

Lemma easy_result_not_iterable_fails_witness :
  fst (ocr_receipt (module_init Scenario.no_paddle (Scenario.returns PyNone))
         Scenario.env Scenario.rgb ∅) =
    Ok (EmptyString,
        join nl ([App.tmp_file_line Scenario.path; App.easy_try_line;
                  App.easy_returned_line; App.easy_error_line;
                  format_exc (TypeError "'NoneType' object is not iterable");
                  App.no_engine_line]
                 ++ Extract.unavailable_entries
                      (module_init Scenario.no_paddle (Scenario.returns PyNone))
                 ++ App.hints))
  /\ calls (snd (ocr_receipt (module_init Scenario.no_paddle (Scenario.returns PyNone))
                   Scenario.env Scenario.rgb ∅)) = [EasyOCR].
Proof.
  apply (easy_result_not_iterable_fails _ _ _ _ Scenario.path (fun _ => Ok PyNone) PyNone);
    vm_compute; reflexivity.
Defined.

(** Joining raises as soon as one line is not a [str]. *)
Lemma str_join_not_str (sep : string) (items : list PyVal) (v : PyVal) :
  v ∈ items -> is_str v = false -> exists e, str_join sep items = Raise e.
Proof.
  intros Hin Hv. unfold str_join.
  assert (H : forall i, exists e, strs_from i items = Raise e).
  { induction Hin as [v items | v w items Hin IH]; intros i.
    - destruct v; try discriminate Hv; simpl; eexists; reflexivity.
    - destruct w; simpl; try (eexists; reflexivity).
      destruct (IH Hv (S i)) as [e ->]. eexists; reflexivity. }
  destruct (H 0%nat) as [e ->]. eexists; reflexivity.
Qed.

(** X9.  A text field that can be read but is not a [str] (a number, a
    nested list) is not rendered: the join of the lines raises, so the
    PaddleOCR attempt ends in its handler after the success entry, with the
    error line and the traceback in the trace, and the request goes on to
    EasyOCR if it is constructed. *)
Theorem text_field_not_str_fails_the_attempt (g : Globals) (env : Env) (image : ImageArg)
    (fs : gset string) (p : string) (engine : Engine) (items : list PyVal)
    (item v : PyVal) :
  persisted env image fs = Some p ->
  paddle_ocr g = Some engine ->
  engine p = Ok (PyList [PyList items]) ->
  item ∈ items ->
  Extract.read_A item = Ok v ->
  is_str v = false ->
  exists e text more,
    fst (ocr_receipt g env image fs) =
      Ok (text,
          join nl ([App.tmp_file_line p; App.paddle_try_line; App.paddle_returned_line;
                    App.paddle_error_line; format_exc e] ++ more))
    /\ calls (snd (ocr_receipt g env image fs)) =
       PaddleOCR :: match easy_reader g with Some _ => [EasyOCR] | None => [] end.
Proof.
  intros Hpers Hg Hcall Hitem Hread Hv.
  assert (Htoken : v ∈ Extract.tokens_A (PyList [PyList items])).
  { unfold Extract.tokens_A. simpl. rewrite app_nil_r.
    apply list_elem_of_fmap. exists item. split; [| exact Hitem].
    unfold Extract.token. rewrite Hread. reflexivity. }
  destruct (str_join_not_str nl _ _ Htoken Hv) as [e He].
  exists e.
  start_request Hpers.
  rewrite (try_paddle_run g engine) by assumption.
  unfold Extract.attempt, Extract.paddle_log. rewrite Hcall.
  unfold Extract.answer_A, Extract.text_of. rewrite He.
  cbn [Extract.notes_A iter app].
  destruct (easy_reader g) as [ee |] eqn:Hee;
    [ rewrite (try_easy_run g ee) by (simpl; assumption);
      destruct (Extract.attempt ee Extract.answer_B p) as [text' | e']
    | rewrite try_easy_none by assumption ];
    rewrite ?report_unavailable_run;
    cbn [debug_lines calls files tmp_path fst snd app];
    rewrite <- ?app_assoc;
    do 2 eexists; (split; reflexivity).
Qed.

Lemma text_field_not_str_fails_the_attempt_witness :
  exists e text more,
    fst (ocr_receipt
           (module_init
              (Scenario.returns
                 (PyList [PyList [PyTuple [Scenario.box; PyTuple [PyInt 500]]]]))
              (Scenario.returns Scenario.receipt_ok))
           Scenario.env Scenario.rgb ∅) =
      Ok (text,
          join nl ([App.tmp_file_line Scenario.path; App.paddle_try_line;
                    App.paddle_returned_line; App.paddle_error_line; format_exc e]
                   ++ more))
    /\ calls (snd (ocr_receipt
                     (module_init
                        (Scenario.returns
                           (PyList [PyList [PyTuple [Scenario.box; PyTuple [PyInt 500]]]]))
                        (Scenario.returns Scenario.receipt_ok))
                     Scenario.env Scenario.rgb ∅)) =
       PaddleOCR ::
       match easy_reader
               (module_init
                  (Scenario.returns
                     (PyList [PyList [PyTuple [Scenario.box; PyTuple [PyInt 500]]]]))
                  (Scenario.returns Scenario.receipt_ok))
       with Some _ => [EasyOCR] | None => [] end.
Proof.
  apply (text_field_not_str_fails_the_attempt _ _ _ _ Scenario.path
           (fun _ => Ok (PyList [PyList [PyTuple [Scenario.box; PyTuple [PyInt 500]]]]))
           [PyTuple [Scenario.box; PyTuple [PyInt 500]]]
           (PyTuple [Scenario.box; PyTuple [PyInt 500]]) (PyInt 500));
    try (vm_compute; reflexivity).
  apply list_elem_of_here.
Defined.

(** X10.  The [finally] block never raises, removes nothing but the file
    named by [tmp_path], and running it again changes nothing: it is safe
    after a path that has already removed the file. *)
Theorem cleanup_is_idempotent (st : State) :
  fst (App.cleanup st) = Ok tt
  /\ App.cleanup (snd (App.cleanup st)) = (Ok tt, snd (App.cleanup st))
  /\ (forall q, tmp_path st <> Some q ->
        (q ∈ files (snd (App.cleanup st)) <-> q ∈ files st)).
Proof.
  rewrite !cleanup_run. cbn [fst snd tmp_path files calls debug_lines].
  split; [reflexivity |]. split.
  - destruct (tmp_path st) as [p |]; [rewrite removed_twice |]; reflexivity.
  - intros q Hq. destruct (tmp_path st) as [p |]; [| reflexivity].
    assert (q <> p) by congruence. set_solver.
Qed.


(** The text [recognize] returns is empty or the answer of an engine. *)
Lemma recognize_text (g : Globals) (p : string) (st : State) :
  p ∈ files st ->
  exists text trace st',
    App.recognize g p st = (Ok (text, trace), st')
    /\ (text = EmptyString
        \/ (exists engine,
              paddle_ocr g = Some engine
              /\ Extract.attempt engine Extract.answer_A p = Ok text)
        \/ (paddle_answers g p = false
            /\ exists engine,
                 easy_reader g = Some engine
                 /\ Extract.attempt engine Extract.answer_B p = Ok text)).
Proof.
  intros Hp. unfold App.recognize, bind, paddle_answers.
  destruct (paddle_ocr g) as [pe |] eqn:Hpe;
    [ rewrite (try_paddle_run g pe) by assumption;
      destruct (Extract.attempt pe Extract.answer_A p) as [text | e] eqn:HA
    | rewrite try_paddle_none by assumption ];
    try (destruct (easy_reader g) as [ee |] eqn:Hee;
         [ rewrite (try_easy_run g ee) by (simpl; assumption);
           destruct (Extract.attempt ee Extract.answer_B p) as [text' | e'] eqn:HB
         | rewrite try_easy_none by assumption ]);
    rewrite ?report_unavailable_run;
    do 3 eexists; (split; [reflexivity |]);
    first
      [ left; reflexivity
      | right; left; eexists; split; [reflexivity | eassumption]
      | right; right; split; [reflexivity |]; eexists; split; [reflexivity | eassumption] ].
Qed.

(** X12.  The text is never made up: a returned text that is not empty is
    the stripped, newline-joined answer of an engine on the temporary file
    of this request: that of PaddleOCR, or that of EasyOCR when PaddleOCR
    is missing or its attempt raised. *)
Theorem text_comes_from_an_engine (g : Globals) (env : Env) (image : ImageArg)
    (fs : gset string) (text trace : string) :
  fst (ocr_receipt g env image fs) = Ok (text, trace) ->
  text <> EmptyString ->
  exists p,
    persisted env image fs = Some p
    /\ ((exists engine,
           paddle_ocr g = Some engine
           /\ Extract.attempt engine Extract.answer_A p = Ok text)
        \/ (paddle_answers g p = false
            /\ exists engine,
                 easy_reader g = Some engine
                 /\ Extract.attempt engine Extract.answer_B p = Ok text)).
Proof.
  intros Hout Htext.
  destruct (persisted env image fs) as [p |] eqn:Hpers.
  - exists p. split; [reflexivity |].
    destruct (ocr_receipt_persisted g _ _ _ _ Hpers) as [Hin Hrun].
    rewrite Hrun in Hout.
    destruct (recognize_text g p _ Hin) as (text0 & trace0 & st' & Hr & Hcases).
    rewrite Hr in Hout. simpl in Hout. injection Hout as -> ->.
    destruct Hcases as [Hempty | Hcases]; [contradiction | exact Hcases].
  - exfalso. rewrite ocr_receipt_run in Hout.
    destruct (ocr_receipt_try_not_persisted g _ _ _ Hpers) as (st & _ & _ & Hm).
    destruct (failure_before_engines env image fs) as [e |];
      [| destruct Hm as [_ Hm]]; rewrite Hm in Hout; simpl in Hout;
      injection Hout as <- _; apply Htext; reflexivity.
Qed.

Lemma text_comes_from_an_engine_witness :
  exists p,
    persisted Scenario.env Scenario.rgb ∅ = Some p
    /\ ((exists engine,
           paddle_ocr (module_init Scenario.raises (Scenario.returns Scenario.receipt_ok))
             = Some engine
           /\ Extract.attempt engine Extract.answer_A p = Ok "Receipt OK")
        \/ (paddle_answers
              (module_init Scenario.raises (Scenario.returns Scenario.receipt_ok)) p = false
            /\ exists engine,
                 easy_reader
                   (module_init Scenario.raises (Scenario.returns Scenario.receipt_ok))
                   = Some engine
                 /\ Extract.attempt engine Extract.answer_B p = Ok "Receipt OK")).
Proof.
  apply (text_comes_from_an_engine
           (module_init Scenario.raises (Scenario.returns Scenario.receipt_ok))
           Scenario.env Scenario.rgb ∅ "Receipt OK"
           (join nl [App.tmp_file_line Scenario.path;
                     App.paddle_try_line; App.paddle_error_line; format_exc Scenario.boom;
                     App.easy_try_line; App.easy_returned_line])).
  - vm_compute. reflexivity.
  - discriminate.
Defined.
